(** * opinions-frontend: the Trending and Profile screens

    A shallow embedding of [src/app/Trending.tsx] and
    [src/app/ProfileScreen.tsx]: the fetch / enrich / aggregate pipeline of
    each screen, the navigation handlers and the render functions, followed
    by the properties of the specification that are about them.

    Modelling conventions.
    - A TypeScript interface is a [Record]; an optional or possibly
      [undefined] string field is an [option string].
    - Vote counts are JavaScript numbers holding integers; a count is the
      [Z] it holds.  The sum the profile screen accumulates is computed with
      [JS.add], the addition of IEEE-754 doubles (round to nearest, ties to
      even, overflow to an infinity).
    - A JavaScript string is a [string] of code units below 256.
    - An async function is a computation in the monad [M]: it threads the
      screen's React state and a trace of the effects performed (requests,
      console output, navigation calls), and completes normally, by a
      throw, or never (an [await] on a promise that never settles).
    - The network, the local storage and the order in which concurrent
      prompt fetches complete are inputs of the model. *)

From Stdlib Require Import ZArith NArith String Ascii List Bool Lia.
From Stdlib Require Import Sorted Permutation.
From stdpp Require Import base list.

Import ListNotations.
Local Open Scope Z_scope.
Local Open Scope string_scope.
Local Open Scope list_scope.

(** ** JavaScript numbers produced by [Number(string)] *)

Module JS.

(** A JavaScript number (an IEEE-754 double): [NaN], an infinity, or the
    finite value [(-1)^negative * mantissa * 10^exponent].  Every finite
    double has such a decimal expansion; the functions below return it with
    exponent 0 for an integer and otherwise with a negative exponent and a
    mantissa that is not a multiple of ten. *)
Inductive number : Type :=
| NaN
| Infinity (negative : bool)
| Decimal (negative : bool) (mantissa : N) (exponent : Z).

Definition isNaN (x : number) : bool :=
  match x with NaN => true | _ => false end.

(** Removes factors of ten from [m] while the exponent is negative. *)
Fixpoint normalize (fuel : nat) (m : N) (e : Z) : N * Z :=
  match fuel with
  | O => (m, e)
  | S fuel' =>
      if ((e <? 0)%Z && (m mod 10 =? 0)%N)%bool
      then normalize fuel' (m / 10)%N (e + 1)%Z
      else (m, e)
  end.

(** [floor (log2 (n / d))] for positive [n] and [d]. *)
Definition log2_ratio (n d : N) : Z :=
  if (d <=? n)%N then Z.of_N (N.log2 (n / d))
  else
    let c := N.log2 (d / n) in
    if (d =? n * 2 ^ c)%N then (- Z.of_N c)%Z else (- Z.of_N c - 1)%Z.

(** The double nearest to [n / d] ([d] positive), with the given sign:
    53 bits of precision, round to nearest with ties to even, gradual
    underflow from exponent -1074, and an infinity from [2^1024] on. *)
Definition roundToDouble (negative : bool) (n d : N) : number :=
  if (n =? 0)%N then Decimal negative 0 0
  else
    let q := Z.max (log2_ratio n d - 52) (-1074) in
    let '(a, b) :=
      if (0 <=? q)%Z then (n, d * 2 ^ Z.to_N q)%N
      else (n * 2 ^ Z.to_N (- q), d)%N in
    let quot := (a / b)%N in
    let rem := (a mod b)%N in
    let quot :=
      if ((b <? 2 * rem)%N || ((b =? 2 * rem)%N && N.odd quot))%bool
      then (quot + 1)%N else quot in
    if (0 <=? q)%Z then
      let v := (quot * 2 ^ Z.to_N q)%N in
      if (2 ^ 1024 <=? v)%N then Infinity negative else Decimal negative v 0
    else
      let '(m, e) := normalize (Z.to_nat (- q)) (quot * 5 ^ Z.to_N (- q))%N q in
      Decimal negative m e.

(** The double nearest to [m * 10^e]. *)
Definition toDouble (negative : bool) (m : N) (e : Z) : number :=
  if (0 <=? e)%Z then roundToDouble negative (m * 10 ^ Z.to_N e) 1
  else roundToDouble negative m (10 ^ Z.to_N (- e)).

(** The number that holds the integer [z] (the nearest double when [z] is
    not one). *)
Definition ofZ (z : Z) : number :=
  toDouble (z <? 0)%Z (Z.to_N (Z.abs z)) 0.

(** [x + y] on numbers. *)
Definition add (x y : number) : number :=
  match x with
  | NaN => NaN
  | Infinity s =>
      match y with
      | NaN => NaN
      | Infinity s' => if Bool.eqb s s' then Infinity s else NaN
      | Decimal _ _ _ => Infinity s
      end
  | Decimal s m e =>
      match y with
      | NaN => NaN
      | Infinity s' => Infinity s'
      | Decimal s' m' e' =>
          let e0 := Z.min e e' in
          let signed (negative : bool) (mantissa : N) (exponent : Z) : Z :=
            ((if negative then -1 else 1) * Z.of_N mantissa
             * 10 ^ (exponent - e0))%Z in
          let total := (signed s m e + signed s' m' e')%Z in
          if (total =? 0)%Z then Decimal (s && s') 0 0
          else toDouble (total <? 0)%Z (Z.to_N (Z.abs total)) e0
      end
  end.

Definition code (c : ascii) : N := N_of_ascii c.

(** StrWhiteSpaceChar: TAB, LF, VT, FF, CR, SP and NBSP. *)
Definition isWhiteSpace (c : ascii) : bool :=
  let n := code c in
  ((9 <=? n) && (n <=? 13) || (n =? 32) || (n =? 160))%N.

(** Value of [c] as a digit in the given radix. *)
Definition digitValue (radix : N) (c : ascii) : option N :=
  let n := code c in
  let v :=
    if ((48 <=? n) && (n <=? 57))%N then Some (n - 48)%N
    else if ((97 <=? n) && (n <=? 102))%N then Some (n - 87)%N
    else if ((65 <=? n) && (n <=? 70))%N then Some (n - 55)%N
    else None in
  match v with
  | Some d => if (d <? radix)%N then Some d else None
  | None => None
  end.

Fixpoint dropWhiteSpace (s : list ascii) : list ascii :=
  match s with
  | c :: s' => if isWhiteSpace c then dropWhiteSpace s' else s
  | [] => []
  end.

Definition trim (s : list ascii) : list ascii :=
  rev (dropWhiteSpace (rev (dropWhiteSpace s))).

(** Reads the longest prefix of digits of [radix]: the digits' value, their
    count and the rest of the input. *)
Fixpoint digits (radix : N) (acc : N) (count : nat) (s : list ascii)
  : N * nat * list ascii :=
  match s with
  | c :: s' =>
      match digitValue radix c with
      | Some d => digits radix (acc * radix + d)%N (S count) s'
      | None => (acc, count, s)
      end
  | [] => (acc, count, [])
  end.

(** NonDecimalIntegerLiteral after its [0x], [0o] or [0b] prefix. *)
Definition nonDecimal (radix : N) (s : list ascii) : number :=
  match digits radix 0 0 s with
  | (v, S _, []) => toDouble false v 0
  | _ => NaN
  end.

(** ExponentPart_opt followed by the end of the literal. *)
Definition exponentPart (s : list ascii) : option Z :=
  match s with
  | [] => Some 0
  | c :: s' =>
      if ((code c =? 101) || (code c =? 69))%N then
        let '(neg, s'') :=
          match s' with
          | "+"%char :: t => (false, t)
          | "-"%char :: t => (true, t)
          | _ => (false, s')
          end in
        match digits 10 0 0 s'' with
        | (v, S _, []) => Some (if neg : bool then - Z.of_N v else Z.of_N v)
        | _ => None
        end
      else None
  end.

(** StrUnsignedDecimalLiteral. *)
Definition unsignedDecimal (negative : bool) (s : list ascii) : number :=
  if String.eqb (string_of_list_ascii s) "Infinity"
  then Infinity negative
  else
    let '(ip, ni, rest) := digits 10 0 0 s in
    let '(m, nf, rest') :=
      match rest with
      | "."%char :: t => digits 10 ip 0 t
      | _ => (ip, 0%nat, rest)
      end in
    match (ni + nf)%nat, exponentPart rest' with
    | S _, Some e => toDouble negative m (e - Z.of_nat nf)
    | _, _ => NaN
    end.

(** StringToNumber. *)
Definition Number (s : string) : number :=
  match trim (list_ascii_of_string s) with
  | [] => Decimal false 0 0
  | "+"%char :: t => unsignedDecimal false t
  | "-"%char :: t => unsignedDecimal true t
  | "0"%char :: c :: t =>
      if ((code c =? 120) || (code c =? 88))%N then nonDecimal 16 t
      else if ((code c =? 111) || (code c =? 79))%N then nonDecimal 8 t
      else if ((code c =? 98) || (code c =? 66))%N then nonDecimal 2 t
      else unsignedDecimal false ("0"%char :: c :: t)
  | t => unsignedDecimal false t
  end.

(** [Array.prototype.sort(compareFn)] for a consistent comparator: a stable
    sort; [a] is placed before [b] when [compareFn a b < 0] and ties keep
    their input order. *)
Fixpoint insert {A} (compareFn : A -> A -> Z) (x : A) (l : list A) : list A :=
  match l with
  | [] => [x]
  | y :: l' =>
      if (compareFn y x <? 0)%Z then y :: insert compareFn x l' else x :: y :: l'
  end.

Definition sort {A} (compareFn : A -> A -> Z) (l : list A) : list A :=
  foldr (insert compareFn) [] l.

(** [Array.prototype.slice(start, end)] for indices within [0 .. 2^53). *)
Definition slice {A} (start end_ : nat) (l : list A) : list A :=
  take (end_ - start) (drop start l).

(** [!s] on a value of type [string | null]. *)
Definition falsy (s : option string) : bool :=
  match s with
  | None => true
  | Some s => String.eqb s ""
  end.

(** [`${s}`] for a value of type [string | null]. *)
Definition template (s : option string) : string :=
  match s with
  | None => "null"
  | Some s => s
  end.

End JS.

(** ** Effects: React state, trace, completions *)

Module Async.

Inductive Exn : Type :=
| TypeError          (* property access or call on a value of the wrong shape *)
| NetworkError       (* a rejected [fetch] *)
| SyntaxError        (* a rejected [response.json()] *)
| StorageError       (* a rejected [AsyncStorage.getItem] *)
| NavigationError    (* a throw inside [navigation.navigate] *)
| Error (message : string).

Inductive Event : Type :=
| Fetch (url : string)
| ConsoleLog (message : string)
| ConsoleError (message : string)
| Navigate (route : string) (postId promptId : JS.number).

Definition isFetch (e : Event) : bool :=
  match e with Fetch _ => true | _ => false end.

Definition isConsole (e : Event) : bool :=
  match e with ConsoleLog _ | ConsoleError _ => true | _ => false end.

(** How a computation ends: with a value, with a throw, or suspended for
    ever on a promise that does not settle. *)
Inductive Completion (A : Type) : Type :=
| Normal (a : A)
| Throw (e : Exn)
| Pending.
Arguments Normal {A} a.
Arguments Throw {A} e.
Arguments Pending {A}.

Record World (S : Type) : Type := mkWorld { ui : S; trace : list Event }.
Arguments mkWorld {S} ui trace.
Arguments ui {S} w.
Arguments trace {S} w.

Definition M (S A : Type) : Type := World S -> Completion A * World S.

Section Monad.
Context {S : Type}.

Definition ret {A} (a : A) : M S A := fun w => (Normal a, w).

Definition bind {A B} (m : M S A) (k : A -> M S B) : M S B :=
  fun w =>
    match m w with
    | (Normal a, w') => k a w'
    | (Throw e, w') => (Throw e, w')
    | (Pending, w') => (Pending, w')
    end.

Definition throw {A} (e : Exn) : M S A := fun w => (Throw e, w).

Definition pending {A} : M S A := fun w => (Pending, w).

(** [try { m } catch (error) { handler error }] *)
Definition try_catch {A} (m : M S A) (handler : Exn -> M S A) : M S A :=
  fun w =>
    match m w with
    | (Throw e, w') => handler e w'
    | r => r
    end.

(** [try { m } finally { finalizer }]; a suspended body never reaches the
    finalizer. *)
Definition try_finally {A} (m : M S A) (finalizer : M S unit) : M S A :=
  fun w =>
    match m w with
    | (Pending, w') => (Pending, w')
    | (r, w') =>
        match finalizer w' with
        | (Normal _, w'') => (r, w'')
        | (Throw e, w'') => (Throw e, w'')
        | (Pending, w'') => (Pending, w'')
        end
    end.

Definition emit (e : Event) : M S unit :=
  fun w => (Normal tt, mkWorld (ui w) (trace w ++ [e])).

(** A React state setter. *)
Definition setState (f : S -> S) : M S unit :=
  fun w => (Normal tt, mkWorld (f (ui w)) (trace w)).

(** [navigation.navigate(route, { postId, promptId })]; [broken] tells
    whether the navigator throws instead of dispatching. *)
Definition navigate (broken : bool) (route : string) (postId promptId : JS.number)
  : M S unit :=
  if broken then throw NavigationError else emit (Navigate route postId promptId).

Definition console_log (message : string) : M S unit := emit (ConsoleLog message).
Definition console_error (message : string) : M S unit := emit (ConsoleError message).

End Monad.

Declare Scope async_scope.
Delimit Scope async_scope with async.
Notation "x <- m ;; k" := (bind m (fun x => k))
  (at level 100, m at next level, right associativity) : async_scope.
Notation "m ;; k" := (bind m (fun _ => k))
  (at level 100, right associativity) : async_scope.

End Async.

(** ** The data model shared by the two screens *)

Module Api.

(** [interface Post] of the two files: [PromptText] and [Category] are the
    fields the enrichment writes ([undefined] when absent). *)
Record Post : Type := mkPost {
  PostID : string;
  PromptID : string;
  PostText : string;
  UpvoteCount : Z;
  DownvoteCount : Z;
  PromptText : option string;
  Category : option string
}.

(** [interface Prompt]: the two fields of the decoded prompt that the
    enrichment reads ([undefined] when the decoded object lacks them). *)
Record Prompt : Type := mkPrompt {
  prompt_PromptText : option string;
  prompt_Category : option string
}.

Record UserData : Type := mkUserData {
  UserID : string;
  Username : string
}.

(** A decoded JSON value of static type [any]: of the shape the code goes
    on to use, or one on which the code's first use of it raises a
    [TypeError]: [null] where a property is read or destructured, any value
    without the method where a method is called. *)
Inductive any (A : Type) : Type :=
| Ill
| Well (a : A).
Arguments Ill {A}.
Arguments Well {A} a.

Inductive Body (A : Type) : Type :=
| NotJson                 (* [json()] rejects *)
| Json (value : any A).
Arguments NotJson {A}.
Arguments Json {A} value.

Record Response (A : Type) : Type := mkResponse { ok : bool; body : Body A }.
Arguments mkResponse {A} ok body.
Arguments ok {A} r.
Arguments body {A} r.

(** What a [fetch] promise settles to.  The list fetch, the user-data
    fetch, [json()] and the storage read are taken to settle; a prompt fetch
    may also stay unsettled, which is told by its index being absent from
    the completion order. *)
Inductive Fetched (A : Type) : Type :=
| Rejected
| Resolved (response : Response A).
Arguments Rejected {A}.
Arguments Resolved {A} response.

Import Async.
Local Open Scope async_scope.

Section Operations.
Context {S : Type}.

(** The continuation of [await p] for a fetch promise [p]. *)
Definition settle {A} (p : Fetched A) : M S (Response A) :=
  match p with
  | Rejected => throw NetworkError
  | Resolved response => ret response
  end.

(** [await fetch(url)] when nothing else runs in between. *)
Definition fetch {A} (url : string) (p : Fetched A) : M S (Response A) :=
  emit (Fetch url) ;; settle p.

(** [await response.json()] *)
Definition json {A} (response : Response A) : M S (any A) :=
  match body response with
  | NotJson => throw SyntaxError
  | Json value => ret value
  end.

(** A member access on a value of type [any]. *)
Definition member {A} (value : any A) : M S A :=
  match value with
  | Ill => throw TypeError
  | Well a => ret a
  end.

(** [Array.prototype.map] over async callbacks, up to each callback's
    first [await]: the callbacks start in index order and [acc] is the
    local variable they share. *)
Fixpoint map_begin {A T} (begin : T -> A -> M S T) (acc : T) (l : list A) : M S T :=
  match l with
  | [] => ret acc
  | x :: l' => acc' <- begin acc x ;; map_begin begin acc' l'
  end.

(** The continuations of the callbacks, run as their promises settle, in
    the order [order]; [values] is the result array of [Promise.all]
    (a slot is written once, at the index of its callback; an index that is
    out of range or already resolved is skipped).  The continuation of one
    callback is run in one step, from the settling of its fetch to its
    return. *)
Fixpoint settle_all {B} (tasks : list (M S B)) (order : list nat)
    (values : list (option B)) : M S (list (option B)) :=
  match order with
  | [] => ret values
  | i :: order' =>
      match values !! i, tasks !! i with
      | Some None, Some task =>
          b <- task ;; settle_all tasks order' (<[i := Some b]> values)
      | _, _ => settle_all tasks order' values
      end
  end.

(** The result array once no slot is left unresolved. *)
Fixpoint collect {B} (values : list (option B)) : option (list B) :=
  match values with
  | [] => Some []
  | Some b :: values' =>
      match collect values' with
      | Some bs => Some (b :: bs)
      | None => None
      end
  | None :: _ => None
  end.

(** [await Promise.all(tasks)]: rejects with the first rejection (the
    throw leaves [settle_all]), resolves with the array of results once
    every task has resolved, and stays pending if one never settles. *)
Definition Promise_all {B} (tasks : list (M S B)) (order : list nat) : M S (list B) :=
  values <- settle_all tasks order (replicate (length tasks) None) ;;
  match collect values with
  | Some bs => ret bs
  | None => pending
  end.

End Operations.

(** Every one of [n] callbacks appears in the completion order. *)
Definition settles (n : nat) (order : list nat) : bool :=
  forallb (fun i => existsb (Nat.eqb i) order) (seq 0 n).

(** The fetch failed: a network error or a non-success response. *)
Definition fetch_failed {A} (p : Fetched A) : bool :=
  match p with
  | Rejected => true
  | Resolved response => negb (ok response)
  end.

(** The decoded payload of a fetch; there is none when the fetch was
    rejected, its body did not decode, or the decoded value was not of the
    shape the code reads. *)
Definition payload {A} (p : Fetched A) : option A :=
  match p with
  | Resolved response =>
      match body response with
      | Json (Well a) => Some a
      | _ => None
      end
  | Rejected => None
  end.

Definition host : string := "http://34.139.77.174".

Definition prompt_url (post : Post) : string :=
  host ++ "/api/prompt/" ++ PromptID post.

(** [{ ...post, PromptText, Category }] *)
Definition spread (post : Post) (promptText category : option string) : Post :=
  {| PostID := PostID post;
     PromptID := PromptID post;
     PostText := PostText post;
     UpvoteCount := UpvoteCount post;
     DownvoteCount := DownvoteCount post;
     PromptText := promptText;
     Category := category |}.

(** The body of the callback passed to [map] in both [fetchPosts], from the
    point where its [fetch] has settled to [p]:
    [try { if (!promptResponse.ok) ...; const prompt = await
    promptResponse.json(); const { PromptText, Category } = prompt; return
    ... } catch (error) { ... }]. *)
Definition withPrompt {S} (post : Post) (p : Fetched Prompt) : M S Post :=
  try_catch
    (promptResponse <- settle p ;;
     if negb (ok promptResponse) then
       console_error "Failed to fetch prompt for post:" ;;
       ret (spread post (Some "") (Some ""))
     else
       prompt <- json promptResponse ;;
       prompt <- member prompt ;;
       ret (spread post (prompt_PromptText prompt) (prompt_Category prompt)))
    (fun error =>
       console_error "Error fetching prompt:" ;;
       ret (spread post (Some "") (Some ""))).

(** The callbacks of [posts], each with the outcome of its own fetch. *)
Definition withPrompts {S} (posts : list Post) (prompts : nat -> Fetched Prompt)
  : list (M S Post) :=
  imap (fun i post => withPrompt post (prompts i)) posts.

End Api.

(** ** src/app/Trending.tsx *)

Module Trending.
Import Async Api.
Local Open Scope async_scope.

Record State : Type := mkState {
  posts : list Post;
  loading : bool;
  selectedCategory : string
}.

(** The [useState] initial values. *)
Definition initial : State :=
  {| posts := []; loading := true; selectedCategory := "all" |}.

Definition setPosts (v : list Post) : M State unit :=
  setState (fun st => mkState v (loading st) (selectedCategory st)).
Definition setLoading (v : bool) : M State unit :=
  setState (fun st => mkState (posts st) v (selectedCategory st)).
Definition setSelectedCategory (f : string -> string) : M State unit :=
  setState (fun st => mkState (posts st) (loading st) (f (selectedCategory st))).

(** [categories]: identifier and label of each entry. *)
Definition categories : list (string * string) :=
  [ ("sports", "Sports"); ("music", "Music"); ("movies", "Movies");
    ("food", "Food"); ("fashion", "Fashion"); ("tech", "Tech");
    ("travel", "Travel"); ("politics", "Politics"); ("health", "Health");
    ("fitness", "Fitness") ].

Definition handleCategoryPress (categoryId : string) : M State unit :=
  setSelectedCategory (fun prevCategory =>
    if String.eqb prevCategory categoryId then "all" else categoryId).

Definition handlePostPress (broken : bool) (postId promptId : string) : M State unit :=
  try_catch
    (let numericPostId := JS.Number postId in
     let numericPromptId := JS.Number promptId in
     if JS.isNaN numericPostId || JS.isNaN numericPromptId then
       console_error "Invalid postId or promptId format"
     else
       navigate broken "Replies" numericPostId numericPromptId)
    (fun error => console_error "Navigation error:").

(** The inputs of one run of [fetchPosts]. *)
Record Env : Type := mkEnv {
  posts_response : Fetched (list Post);      (* GET /api/posts *)
  prompt_response : nat -> Fetched Prompt;   (* GET /api/prompt/..., per post index *)
  completion_order : list nat                (* indices, in the order the callbacks finish *)
}.

Definition byUpvotes (a b : Post) : Z := UpvoteCount b - UpvoteCount a.

Definition fetchPosts (env : Env) : M State unit :=
  try_catch
    (response <- fetch (host ++ "/api/posts") (posts_response env) ;;
     data <- json response ;;
     data <- member data ;;
     let sortedPosts := JS.slice 0 20 (JS.sort byUpvotes data) in
     map_begin (fun _ post => emit (Fetch (prompt_url post))) tt sortedPosts ;;
     postsWithPrompts <-
       Promise_all (withPrompts sortedPosts (prompt_response env))
         (completion_order env) ;;
     setPosts postsWithPrompts ;;
     setLoading false)
    (fun error =>
       console_error "Error fetching data:" ;;
       setLoading false).

(** What the component returns. *)
Record Card : Type := mkCard {
  key : string;
  promptText : option string;   (* the prompt line, present when [PromptText] is truthy *)
  postText : string;
  voteCount : Z
}.

Inductive View : Type :=
| ActivityIndicator
| Screen (categoryButtons : list (string * bool)) (postCards : list Card).

Definition card (post : Post) : Card :=
  {| key := PostID post;
     promptText := if JS.falsy (PromptText post) then None else PromptText post;
     postText := PostText post;
     voteCount := UpvoteCount post + DownvoteCount post |}.

Definition render (st : State) : View :=
  if loading st then ActivityIndicator
  else
    Screen
      (map (fun category => (category.1, String.eqb (selectedCategory st) category.1))
           categories)
      (map card (posts st)).

End Trending.

(** ** src/app/ProfileScreen.tsx *)

Module ProfileScreen.
Import Async Api.
Local Open Scope async_scope.

Record State : Type := mkState {
  posts : list Post;
  isLoading : bool;
  error : option string;
  username : string;
  userLoading : bool;
  controversyScore : JS.number
}.

Definition initial : State :=
  {| posts := []; isLoading := true; error := None; username := "";
     userLoading := true; controversyScore := JS.ofZ 0 |}.

Definition setPosts (v : list Post) : M State unit :=
  setState (fun st => mkState v (isLoading st) (error st) (username st)
                        (userLoading st) (controversyScore st)).
Definition setIsLoading (v : bool) : M State unit :=
  setState (fun st => mkState (posts st) v (error st) (username st)
                        (userLoading st) (controversyScore st)).
Definition setError (v : string) : M State unit :=
  setState (fun st => mkState (posts st) (isLoading st) (Some v) (username st)
                        (userLoading st) (controversyScore st)).
Definition setUsername (v : string) : M State unit :=
  setState (fun st => mkState (posts st) (isLoading st) (error st) v
                        (userLoading st) (controversyScore st)).
Definition setUserLoading (v : bool) : M State unit :=
  setState (fun st => mkState (posts st) (isLoading st) (error st) (username st)
                        v (controversyScore st)).
Definition setControversyScore (v : JS.number) : M State unit :=
  setState (fun st => mkState (posts st) (isLoading st) (error st) (username st)
                        (userLoading st) v).

(** What [AsyncStorage.getItem('UserID')] settles to. *)
Inductive Stored : Type :=
| GetItemRejects
| Item (value : option string).

(** The inputs of one mount of the screen. *)
Record Env : Type := mkEnv {
  storage : Stored;
  user_response : Fetched UserData;          (* GET /api/user/{id} *)
  posts_response : Fetched (list Post);      (* GET /api/user/{id}/posts, its [posts] member *)
  prompt_response : nat -> Fetched Prompt;   (* GET /api/prompt/..., per post index *)
  completion_order : list nat                (* indices, in the order the callbacks finish *)
}.

Definition getItem (stored : Stored) : M State (option string) :=
  match stored with
  | GetItemRejects => throw StorageError
  | Item value => ret value
  end.

Definition getUserId (env : Env) : M State (option string) :=
  try_catch
    (userId <- getItem (storage env) ;;
     match userId with
     | Some _ => ret userId
     | None => console_log "User not logged in" ;; ret None
     end)
    (fun error =>
       console_error "Error retrieving userId from AsyncStorage" ;;
       ret None).

Definition fetchUserData (env : Env) : M State unit :=
  setUserLoading true ;;
  try_finally
    (try_catch
       (userId <- getUserId env ;;
        if JS.falsy userId then
          setError "User ID is not available" ;;
          setUserLoading false
        else
          response <- fetch (host ++ "/api/user/" ++ JS.template userId)
                        (user_response env) ;;
          (if negb (ok response) then throw (Error "Failed to fetch user data")
           else ret tt) ;;
          userData <- json response ;;
          userData <- member userData ;;
          setUsername (Username userData))
       (fun error =>
          console_error "Error fetching user data:" ;;
          setError "Failed to load user data"))
    (setUserLoading false).

Definition fetchPosts (env : Env) : M State unit :=
  setIsLoading true ;;
  try_finally
    (try_catch
       (userId <- getUserId env ;;
        if JS.falsy userId then
          setError "User ID is not available" ;;
          setIsLoading false
        else
          response <- fetch (host ++ "/api/user/" ++ JS.template userId ++ "/posts")
                        (posts_response env) ;;
          data <- json response ;;
          data_posts <- member data ;;
          totalVotes <-
            map_begin
              (fun totalVotes post =>
                 let totalVotes :=
                   JS.add totalVotes
                     (JS.add (JS.ofZ (UpvoteCount post)) (JS.ofZ (DownvoteCount post))) in
                 console_log "Total votes: " ;;
                 emit (Fetch (prompt_url post)) ;;
                 ret totalVotes)
              (JS.ofZ 0) data_posts ;;
          postsWithPrompts <-
            Promise_all (withPrompts data_posts (prompt_response env))
              (completion_order env) ;;
          setPosts postsWithPrompts ;;
          setControversyScore totalVotes)
       (fun error =>
          console_error "Error fetching posts:" ;;
          setError "Failed to load posts"))
    (setIsLoading false).

Definition navigateToReplies (broken : bool) (postId promptId : string) : M State unit :=
  navigate broken "Replies" (JS.Number postId) (JS.Number promptId).

(** What [renderPosts] returns. *)
Record Card : Type := mkCard {
  key : string + nat;
  promptText : string;
  postText : string;
  score : Z
}.

Inductive View : Type :=
| ActivityIndicator
| ErrorText (message : string)
| EmptyText (message : string)
| Cards (cards : list Card).

Definition card (index : nat) (post : Post) : Card :=
  {| key := if String.eqb (PostID post) "" then inr index else inl (PostID post);
     promptText :=
       match PromptText post with
       | Some text => if String.eqb text "" then "No prompt available" else text
       | None => "No prompt available"
       end;
     postText := PostText post;
     score := UpvoteCount post |}.

Definition renderPosts (st : State) : View :=
  if isLoading st then ActivityIndicator
  else if negb (JS.falsy (error st)) then ErrorText (JS.template (error st))
  else if (length (posts st) =? 0)%nat then EmptyText "No posts yet"
  else Cards (imap card (posts st)).

End ProfileScreen.

(** ** src/app/ProfileScreen.tsx: what the component returns *)

Module ProfilePage.
Import Api ProfileScreen.

(** The profile line of the header: a spinner while the user data loads,
    then [username || 'Unknown User']. *)
Inductive Header : Type :=
| HeaderIndicator
| HeaderName (name : string).

(** The parts of the returned tree that depend on the state: the header,
    the controversy score and the posts section. *)
Record Page : Type := mkPage {
  header : Header;
  scoreValue : JS.number;
  postsSection : View
}.

Definition render (st : State) : Page :=
  {| header :=
       if userLoading st then HeaderIndicator
       else HeaderName (if String.eqb (username st) "" then "Unknown User" else username st);
     scoreValue := controversyScore st;
     postsSection := renderPosts st |}.

End ProfilePage.

(** ** Sample inputs *)

Module Sample.
Import Async Api.

Definition first : Post :=
  {| PostID := "1"; PromptID := "10"; PostText := "first";
     UpvoteCount := 5; DownvoteCount := 1;
     PromptText := None; Category := Some "music" |}.

Definition second : Post :=
  {| PostID := "2"; PromptID := "11"; PostText := "second";
     UpvoteCount := 2; DownvoteCount := 0;
     PromptText := None; Category := None |}.

Definition question : Prompt :=
  {| prompt_PromptText := Some "Cats or dogs?"; prompt_Category := Some "sports" |}.

(** The prompt of the post at index 0 is fetched; the fetch at index 1 is
    rejected; every other one gets a non-success response. *)
Definition prompts (i : nat) : Fetched Prompt :=
  match i with
  | 0%nat => Resolved (mkResponse true (Json (Well question)))
  | 1%nat => Rejected
  | _ => Resolved (mkResponse false NotJson)
  end.

Definition delivered {A} (a : A) : Fetched A := Resolved (mkResponse true (Json (Well a))).

(** Twenty-two posts with upvote counts 0, 1, ..., 6, 0, 1, ... *)
Definition many : list Post :=
  map (fun n => {| PostID := String (ascii_of_nat (65 + n)) "";
                   PromptID := "10"; PostText := "text";
                   UpvoteCount := Z.of_nat (n mod 7); DownvoteCount := 0;
                   PromptText := None; Category := Some "tech" |})
      (seq 0 22).

Definition trending : Trending.Env :=
  {| Trending.posts_response := delivered [second; first];
     Trending.prompt_response := prompts;
     Trending.completion_order := [1; 0]%nat |}.

Definition trending_many : Trending.Env :=
  {| Trending.posts_response := delivered many;
     Trending.prompt_response := prompts;
     Trending.completion_order := rev (seq 0 20) |}.

Definition trending_empty : Trending.Env :=
  {| Trending.posts_response := delivered [];
     Trending.prompt_response := prompts;
     Trending.completion_order := [] |}.

Definition trending_down : Trending.Env :=
  {| Trending.posts_response := Rejected;
     Trending.prompt_response := prompts;
     Trending.completion_order := [] |}.

Definition profile : ProfileScreen.Env :=
  {| ProfileScreen.storage := ProfileScreen.Item (Some "7");
     ProfileScreen.user_response := delivered {| UserID := "7"; Username := "ann" |};
     ProfileScreen.posts_response := delivered [first; second];
     ProfileScreen.prompt_response := prompts;
     ProfileScreen.completion_order := [1; 0]%nat |}.

Definition profile_empty : ProfileScreen.Env :=
  {| ProfileScreen.storage := ProfileScreen.Item (Some "7");
     ProfileScreen.user_response := Rejected;
     ProfileScreen.posts_response := delivered [];
     ProfileScreen.prompt_response := prompts;
     ProfileScreen.completion_order := [] |}.

Definition profile_down : ProfileScreen.Env :=
  {| ProfileScreen.storage := ProfileScreen.Item (Some "7");
     ProfileScreen.user_response := Rejected;
     ProfileScreen.posts_response := Resolved (mkResponse false NotJson);
     ProfileScreen.prompt_response := prompts;
     ProfileScreen.completion_order := [] |}.

Definition logged_out : ProfileScreen.Env :=
  {| ProfileScreen.storage := ProfileScreen.Item None;
     ProfileScreen.user_response := delivered {| UserID := "7"; Username := "ann" |};
     ProfileScreen.posts_response := delivered [first; second];
     ProfileScreen.prompt_response := prompts;
     ProfileScreen.completion_order := [0; 1]%nat |}.

Definition trending_start : World Trending.State := mkWorld Trending.initial [].
Definition profile_start : World ProfileScreen.State := mkWorld ProfileScreen.initial [].

End Sample.

(** ** Notions used in the statements *)

Import Async Api.

(** [m] completes normally with [a] in every world, leaves the React state
    alone and only writes to the console. *)
Definition resolves {S A} (m : M S A) (a : A) : Prop :=
  ∀ w, ∃ logs,
    m w = (Normal a, mkWorld (ui w) (trace w ++ logs)) ∧
    forallb isConsole logs = true.

(** The requests recorded in a trace. *)
Definition requests (t : list Event) : list Event := filter (fun e => isFetch e = true) t.

(** [out] is [posts] enriched: same length, and at each index what the
    callback of that post returns. *)
Definition enriched (S : Type) (prompts : nat -> Fetched Prompt) (posts out : list Post) : Prop :=
  length out = length posts ∧
  ∀ i post, posts !! i = Some post →
    ∃ o, out !! i = Some o ∧ ∀ w : World S, (withPrompt post (prompts i) w).1 = Normal o.

(** The sum of [UpvoteCount + DownvoteCount] over a list of posts. *)
Definition sum_votes (posts : list Post) : Z :=
  foldr Z.add 0 (map (fun post => UpvoteCount post + DownvoteCount post) posts).

(** What [totalVotes] holds after the callbacks of [posts] have started,
    from the value [total]: one [+=] per post, in list order. *)
Definition accumulate (total : JS.number) (posts : list Post) : JS.number :=
  fold_left
    (fun total post =>
       JS.add total (JS.add (JS.ofZ (UpvoteCount post)) (JS.ofZ (DownvoteCount post))))
    posts total.

(** [o] is [post] enriched with the outcome [p] of its prompt fetch: the
    five fields of the post are kept, and [PromptText] and [Category] are
    those of the decoded prompt when the fetch succeeded with a usable body,
    the empty string otherwise. *)
Definition is_enrichment (p : Fetched Prompt) (post o : Post) : Prop :=
  PostID o = PostID post ∧ PromptID o = PromptID post ∧
  PostText o = PostText post ∧
  UpvoteCount o = UpvoteCount post ∧ DownvoteCount o = DownvoteCount post ∧
  match fetch_failed p, payload p with
  | false, Some prompt =>
      PromptText o = prompt_PromptText prompt ∧ Category o = prompt_Category prompt
  | _, _ => PromptText o = Some "" ∧ Category o = Some ""
  end.

(** What the profile screen's callback records before its first [await]. *)
Definition begin_events (post : Post) : list Event :=
  [ConsoleLog "Total votes: "; Fetch (prompt_url post)].

(** Descending order of upvotes. *)
Definition descending (a b : Post) : Prop := UpvoteCount b ≤ UpvoteCount a.

(** The identifier [getUserId] resolves to: the stored value, [null] when
    nothing is stored or the read fails. *)
Definition stored_id (env : ProfileScreen.Env) : option string :=
  match ProfileScreen.storage env with
  | ProfileScreen.Item value => value
  | ProfileScreen.GetItemRejects => None
  end.

Definition isDecimalDigit (c : ascii) : bool :=
  ((48 <=? JS.code c) && (JS.code c <=? 57))%N.

(** A non-empty string of decimal digits. *)
Definition decimal_digits (s : string) : bool :=
  match list_ascii_of_string s with
  | [] => false
  | l => forallb isDecimalDigit l
  end.

(** A sequence of presses on category buttons, one after the other. *)
Fixpoint presses (ids : list string) : M Trending.State unit :=
  match ids with
  | [] => ret tt
  | id :: ids' => bind (Trending.handleCategoryPress id) (fun _ => presses ids')
  end.

(** * Properties *)

Arguments JS.roundToDouble : simpl never.
Arguments JS.toDouble : simpl never.
Arguments JS.ofZ : simpl never.
Arguments JS.add : simpl never.

(** ** The model of [Number] on sample inputs *)

Example Number_42 : JS.Number " 42 " = JS.Decimal false 42 0. Proof. reflexivity. Qed.
Example Number_abc : JS.Number "abc" = JS.NaN. Proof. reflexivity. Qed.
Example Number_empty : JS.Number "" = JS.Decimal false 0 0. Proof. reflexivity. Qed.
Example Number_frac : JS.Number "-1.50e2" = JS.Decimal true 150 0. Proof. reflexivity. Qed.
Example Number_hex : JS.Number "0x1f" = JS.Decimal false 31 0. Proof. reflexivity. Qed.
Example Number_dot : JS.Number "." = JS.NaN. Proof. reflexivity. Qed.
Example Number_12px : JS.Number "12px" = JS.NaN. Proof. reflexivity. Qed.
Example Number_inf : JS.Number "-Infinity" = JS.Infinity true. Proof. reflexivity. Qed.
Example Number_rounds :
  JS.Number "9007199254740993" = JS.Decimal false 9007199254740992 0.
Proof. vm_compute. reflexivity. Qed.
Example Number_half : JS.Number "0.5" = JS.Decimal false 5 (-1).
Proof. vm_compute. reflexivity. Qed.
Example Number_overflows : JS.Number "1e400" = JS.Infinity false.
Proof. vm_compute. reflexivity. Qed.
Example Number_long_digits :
  JS.Number (string_of_list_ascii (repeat "9"%char 401)) = JS.Infinity false.
Proof. vm_compute. reflexivity. Qed.
Example add_ties_to_even :
  JS.add (JS.ofZ (2 ^ 53)) (JS.ofZ 1) = JS.Decimal false 9007199254740992 0.
Proof. vm_compute. reflexivity. Qed.
Example add_tenths :
  JS.add (JS.Number "0.1") (JS.Number "0.2")
  = JS.Decimal false 3000000000000000444089209850062616169452667236328125 (-52).
Proof. vm_compute. reflexivity. Qed.

(** ** Completion-order independence of [Promise.all] *)

Section PromiseAll.
Context {S B : Type}.
Implicit Types (tasks : list (M S B)) (results : list B) (values : list (option B)).

Lemma settles_spec n order : settles n order = true → ∀ i, (i < n)%nat → i ∈ order.
Proof.
  unfold settles. rewrite forallb_forall. intros H i Hi.
  specialize (H i). rewrite in_seq in H.
  assert (Hex : existsb (Nat.eqb i) order = true) by (apply H; lia).
  apply existsb_exists in Hex as (j & Hj & Heq).
  apply Nat.eqb_eq in Heq. subst j. by apply list_elem_of_In.
Qed.

Lemma collect_Some results : collect (Some <$> results) = Some results.
Proof. induction results as [|b l IH]; csimpl; [done | by rewrite IH]. Qed.

Lemma results_exist tasks :
  Forall (fun t => ∃ b, resolves t b) tasks → ∃ results, Forall2 resolves tasks results.
Proof.
  induction 1 as [|t tasks [b Hb] _ [results IH]].
  - by exists [].
  - exists (b :: results). by constructor.
Qed.

Lemma settle_all_spec tasks results :
  Forall2 resolves tasks results →
  ∀ order values w,
    length values = length results →
    (∀ i b, values !! i = Some (Some b) → results !! i = Some b) →
    ∃ values' logs,
      settle_all tasks order values w
        = (Normal values', mkWorld (ui w) (trace w ++ logs)) ∧
      forallb isConsole logs = true ∧
      length values' = length results ∧
      (∀ i b, values' !! i = Some (Some b) → results !! i = Some b) ∧
      (∀ i, i ∈ order ∨ (∃ b, values !! i = Some (Some b)) →
            (i < length results)%nat → ∃ b, values' !! i = Some (Some b)).
Proof.
  intros Htasks. induction order as [|i order IH]; intros values w Hlen Hval.
  - exists values, []. simpl. rewrite app_nil_r. destruct w. repeat split; try done.
    intros i [Hi | Hi] _; [by apply elem_of_nil in Hi | done].
  - simpl. destruct (values !! i) as [[b|]|] eqn:Hvi.
    + destruct (IH values w Hlen Hval) as (values' & logs & Hrun & Hlogs & Hlen' & Hval' & Hdone).
      exists values', logs. repeat split; try done.
      intros j Hj Hlt. apply Hdone; [|done].
      destruct Hj as [Hj | Hj]; [|by right].
      apply elem_of_cons in Hj as [-> | Hj]; [right; eauto | by left].
    + destruct (tasks !! i) as [task|] eqn:Hti.
      * destruct (Forall2_lookup_l _ _ _ _ _ Htasks Hti) as (r & Hri & Hres).
        destruct (Hres w) as (logs1 & Hrun1 & Hlogs1).
        unfold bind at 1. rewrite Hrun1.
        destruct (IH (<[i := Some r]> values) (mkWorld (ui w) (trace w ++ logs1)))
          as (values' & logs & Hrun & Hlogs & Hlen' & Hval' & Hdone).
        { by rewrite length_insert. }
        { intros j b Hj. destruct (decide (i = j)) as [-> | Hne].
          - rewrite list_lookup_insert_eq in Hj by (by eapply lookup_lt_Some).
            congruence.
          - rewrite list_lookup_insert_ne in Hj by done. by apply Hval. }
        exists values', (logs1 ++ logs). simpl in Hrun. rewrite Hrun, app_assoc.
        repeat split; try done.
        { rewrite forallb_app. by rewrite Hlogs1, Hlogs. }
        intros j Hj Hlt. apply Hdone; [|done].
        destruct (decide (i = j)) as [-> | Hne].
        { right. exists r. apply list_lookup_insert_eq. by eapply lookup_lt_Some. }
        destruct Hj as [Hj | [b Hj]].
        { apply elem_of_cons in Hj as [-> | Hj]; [done | by left]. }
        right. exists b. by rewrite list_lookup_insert_ne.
      * exfalso. apply lookup_lt_Some in Hvi. apply lookup_ge_None in Hti.
        apply Forall2_length in Htasks. lia.
    + destruct (IH values w Hlen Hval) as (values' & logs & Hrun & Hlogs & Hlen' & Hval' & Hdone).
      exists values', logs. repeat split; try done.
      intros j Hj Hlt. apply Hdone; [|done].
      destruct Hj as [Hj | Hj]; [|by right].
      apply elem_of_cons in Hj as [-> | Hj]; [|by left].
      apply lookup_ge_None in Hvi. lia.
Qed.

Lemma Promise_all_resolves tasks results order :
  Forall2 resolves tasks results →
  (∀ i, (i < length tasks)%nat → i ∈ order) →
  resolves (Promise_all tasks order) results.
Proof.
  intros Htasks Horder w. unfold Promise_all, bind.
  pose proof (Forall2_length _ _ _ Htasks) as Hlen.
  destruct (settle_all_spec tasks results Htasks order
              (replicate (length tasks) None) w)
    as (values' & logs & Hrun & Hlogs & Hlen' & Hval' & Hdone).
  { by rewrite length_replicate. }
  { intros i b Hi. apply lookup_replicate in Hi as [? _]. done. }
  rewrite Hrun. exists logs.
  assert (values' = Some <$> results) as ->.
  { apply list_eq. intros i. rewrite list_lookup_fmap.
    destruct (results !! i) as [r|] eqn:Hri; simpl.
    - destruct (Hdone i) as [b Hb].
      + left. apply Horder. apply lookup_lt_Some in Hri. lia.
      + by eapply lookup_lt_Some.
      + rewrite Hb. f_equal. f_equal. apply Hval' in Hb. congruence.
    - apply lookup_ge_None in Hri. apply lookup_ge_None. lia. }
  rewrite collect_Some. done.
Qed.

End PromiseAll.

(** ** The enrichment callback *)

Section Callback.
Context {S : Type}.

Lemma resolves_result {A} (m : M S A) (a : A) (w : World S) :
  resolves m a → (m w).1 = Normal a.
Proof. intros H. destruct (H w) as (logs & -> & _). done. Qed.

Lemma resolves_unique {A} (m : M S A) (a b : A) (w : World S) :
  resolves m a → (m w).1 = Normal b → a = b.
Proof. intros H Hb. rewrite (resolves_result _ _ _ H) in Hb. congruence. Qed.

Lemma withPrompt_failed post (p : Fetched Prompt) :
  fetch_failed p = true →
  resolves (S:=S) (withPrompt post p) (spread post (Some "") (Some "")).
Proof.
  intros Hp w. unfold withPrompt, try_catch, bind.
  destruct p as [|[[] b]]; simpl in *; try discriminate.
  - exists [ConsoleError "Error fetching prompt:"]. done.
  - exists [ConsoleError "Failed to fetch prompt for post:"]. done.
Qed.

Lemma withPrompt_undecoded post (p : Fetched Prompt) :
  payload p = None →
  resolves (S:=S) (withPrompt post p) (spread post (Some "") (Some "")).
Proof.
  intros Hp w. unfold withPrompt, try_catch, bind.
  destruct p as [|[[] [|[|prompt]]]]; simpl in *; try discriminate;
    first [ by exists [ConsoleError "Error fetching prompt:"]
          | by exists [ConsoleError "Failed to fetch prompt for post:"] ].
Qed.

Lemma withPrompt_fetched post (response : Response Prompt) prompt :
  ok response = true →
  body response = Json (Well prompt) →
  resolves (S:=S) (withPrompt post (Resolved response))
    (spread post (prompt_PromptText prompt) (prompt_Category prompt)).
Proof.
  intros Hok Hbody w. unfold withPrompt, try_catch, bind, json. simpl.
  rewrite Hok, Hbody. simpl. exists []. rewrite app_nil_r. by destruct w.
Qed.

(** The callback always returns, and what it returns is the post with
    its two prompt fields set. *)
Lemma withPrompt_resolves post (p : Fetched Prompt) :
  ∃ promptText category,
    resolves (S:=S) (withPrompt post p) (spread post promptText category).
Proof.
  destruct (fetch_failed p) eqn:Hfailed.
  { exists (Some ""), (Some ""). by apply withPrompt_failed. }
  destruct (payload p) as [prompt|] eqn:Hpayload.
  - destruct p as [|response]; [done|]. simpl in *.
    exists (prompt_PromptText prompt), (prompt_Category prompt).
    apply withPrompt_fetched.
    + by destruct (ok response).
    + by destruct (body response) as [|[|?]]; simplify_eq.
  - exists (Some ""), (Some ""). by apply withPrompt_undecoded.
Qed.

Lemma withPrompts_resolve posts prompts :
  ∃ out, Forall2 resolves (withPrompts (S:=S) posts prompts) out ∧
         enriched S prompts posts out.
Proof.
  destruct (results_exist (withPrompts (S:=S) posts prompts)) as [out Hout].
  { apply Forall_lookup. intros i task Hi. unfold withPrompts in Hi.
    rewrite list_lookup_imap in Hi.
    destruct (posts !! i) as [post|]; simplify_eq/=.
    destruct (withPrompt_resolves post (prompts i)) as (pt & cat & H). eauto. }
  exists out. split; [done|]. split.
  - apply Forall2_length in Hout. unfold withPrompts in Hout.
    by rewrite length_imap in Hout.
  - intros i post Hi.
    assert (Hti : withPrompts (S:=S) posts prompts !! i
                  = Some (withPrompt post (prompts i))).
    { unfold withPrompts. by rewrite list_lookup_imap, Hi. }
    destruct (Forall2_lookup_l _ _ _ _ _ Hout Hti) as (o & Ho & Hres).
    exists o. split; [done|]. intros w. by apply resolves_result.
Qed.

(** [Promise.all] over the callbacks: whatever the completion order, the
    result is the enriched list. *)
Lemma enrichment_resolves posts prompts order :
  settles (length posts) order = true →
  ∃ out, resolves (Promise_all (withPrompts (S:=S) posts prompts) order) out ∧
         enriched S prompts posts out.
Proof.
  intros Horder. destruct (withPrompts_resolve posts prompts) as (out & Hout & Henr).
  exists out. split; [|done]. apply Promise_all_resolves; [done|].
  unfold withPrompts. rewrite length_imap. by apply settles_spec.
Qed.

End Callback.

(** ** Sorting by upvotes *)

Section Sort.
Context {A : Type} (compareFn : A → A → Z).

Lemma insert_Permutation x l : JS.insert compareFn x l ≡ₚ x :: l.
Proof.
  induction l as [|y l IH]; simpl; [done|].
  destruct (compareFn y x <? 0)%Z; [|done].
  rewrite IH. apply perm_swap.
Qed.

Lemma sort_Permutation l : JS.sort compareFn l ≡ₚ l.
Proof.
  induction l as [|x l IH]; simpl; [done|].
  rewrite insert_Permutation. by constructor.
Qed.

Lemma sort_length l : length (JS.sort compareFn l) = length l.
Proof. apply Permutation_length, sort_Permutation. Qed.

End Sort.

Lemma insert_descending x l :
  StronglySorted descending l →
  StronglySorted descending (JS.insert Trending.byUpvotes x l).
Proof.
  induction 1 as [|y l Hl IH Hy]; simpl.
  - repeat constructor.
  - unfold Trending.byUpvotes at 1.
    destruct (Z.ltb_spec (UpvoteCount x - UpvoteCount y) 0) as [Hlt | Hge].
    + constructor; [done|].
      rewrite insert_Permutation. constructor; [|done]. unfold descending. lia.
    + constructor; [by constructor|].
      constructor; [unfold descending; lia|].
      eapply Forall_impl; [exact Hy|]. unfold descending. intros z Hz. lia.
Qed.

Lemma sort_descending l : StronglySorted descending (JS.sort Trending.byUpvotes l).
Proof.
  induction l as [|x l IH]; simpl; [constructor|]. by apply insert_descending.
Qed.

Lemma slice_length {A} (l : list A) n :
  (n ≤ length l)%nat → length (JS.slice 0 n l) = n.
Proof. intros H. unfold JS.slice. rewrite Nat.sub_0_r, drop_0, length_take. lia. Qed.

(** ** Runs of the two pipelines *)

Lemma bind_Normal {S A B} (m : M S A) (k : A → M S B) w a w' :
  m w = (Normal a, w') → bind m k w = k a w'.
Proof. intros H. unfold bind. by rewrite H. Qed.

Lemma fetch_payload {S A} url (p : Fetched A) (a : A) (k : A → M S unit) (w : World S) :
  payload p = Some a →
  bind (fetch url p) (fun response =>
    bind (json response) (fun data => bind (member data) k)) w
  = k a (mkWorld (ui w) (trace w ++ [Fetch url])).
Proof.
  intros Hp. destruct p as [|[o [|[|a']]]]; simplify_eq/=. done.
Qed.

Lemma fetch_no_payload {S A} url (p : Fetched A) (k : A → M S unit) (w : World S) :
  payload p = None →
  ∃ e, bind (fetch url p) (fun response =>
         bind (json response) (fun data => bind (member data) k)) w
       = (Throw e, mkWorld (ui w) (trace w ++ [Fetch url])).
Proof.
  intros Hp. destruct p as [|[o [|[|a']]]]; simplify_eq/=; eauto.
Qed.

Section TrendingRuns.
Import Trending.

Lemma trending_begin_run posts (w : World State) :
  map_begin (fun _ post => emit (Fetch (prompt_url post))) tt posts w
  = (Normal tt, mkWorld (ui w) (trace w ++ map (fun post => Fetch (prompt_url post)) posts)).
Proof.
  revert w. induction posts as [|post posts IH]; intros w; simpl.
  - rewrite app_nil_r. by destruct w.
  - unfold bind, emit at 1. rewrite IH. simpl. by rewrite <- app_assoc.
Qed.

(** A run of [fetchPosts] whose list fetch delivers [data]. *)
Lemma trending_fetchPosts_run env data (w : World State) :
  payload (posts_response env) = Some data →
  let sortedPosts := JS.slice 0 20 (JS.sort byUpvotes data) in
  settles (length sortedPosts) (completion_order env) = true →
  ∃ out logs,
    enriched State (prompt_response env) sortedPosts out ∧
    forallb isConsole logs = true ∧
    fetchPosts env w
    = (Normal tt,
       mkWorld (mkState out false (selectedCategory (ui w)))
         (trace w ++ Fetch (host ++ "/api/posts")
            :: map (fun post => Fetch (prompt_url post)) sortedPosts ++ logs)).
Proof.
  intros Hdata sortedPosts Horder.
  destruct (enrichment_resolves (S:=State) sortedPosts (prompt_response env)
              (completion_order env) Horder) as (out & Hout & Henr).
  exists out.
  set (w1 := mkWorld (ui w) ((trace w ++ [Fetch (host ++ "/api/posts")])
               ++ map (fun post => Fetch (prompt_url post)) sortedPosts)).
  destruct (Hout w1) as (logs & Hrun & Hlogs).
  exists logs. repeat split; [apply Henr.. | done |].
  unfold fetchPosts, try_catch. rewrite (fetch_payload _ _ data) by done.
  fold sortedPosts. erewrite bind_Normal by apply trending_begin_run.
  fold w1. erewrite bind_Normal by exact Hrun.
  unfold bind, setPosts, setLoading, setState. simpl.
  by rewrite <- !app_assoc.
Qed.

(** A run of [fetchPosts] whose list fetch fails. *)
Lemma trending_fetchPosts_failed env (w : World State) :
  payload (posts_response env) = None →
  fetchPosts env w
  = (Normal tt,
     mkWorld (mkState (posts (ui w)) false (selectedCategory (ui w)))
       (trace w ++ [Fetch (host ++ "/api/posts"); ConsoleError "Error fetching data:"])).
Proof.
  intros Hdata. unfold fetchPosts, try_catch.
  edestruct (fetch_no_payload (S:=State) (host ++ "/api/posts") (posts_response env))
    as [e He]; [exact Hdata|].
  rewrite He.
  unfold bind, console_error, emit, setLoading, setState. simpl.
  by rewrite <- app_assoc.
Qed.

End TrendingRuns.

Section ProfileRuns.
Import ProfileScreen.

Lemma getUserId_stored env userId (w : World State) :
  storage env = Item userId →
  JS.falsy userId = false →
  getUserId env w = (Normal userId, w).
Proof.
  intros Hs Hid. unfold getUserId, try_catch, bind, getItem. rewrite Hs.
  by destruct userId.
Qed.

(** Without a stored identifier [getUserId] returns [null] after one line
    of console output. *)
Lemma getUserId_null env (w : World State) :
  storage env = Item None ∨ storage env = GetItemRejects →
  ∃ log, isConsole log = true ∧
    getUserId env w = (Normal None, mkWorld (ui w) (trace w ++ [log])).
Proof.
  intros [Hs | Hs]; unfold getUserId, try_catch, bind, getItem; rewrite Hs; simpl.
  - by exists (ConsoleLog "User not logged in").
  - by exists (ConsoleError "Error retrieving userId from AsyncStorage").
Qed.

Lemma profile_begin_run posts totalVotes (w : World State) :
  map_begin
    (fun totalVotes post =>
       let totalVotes :=
         JS.add totalVotes
           (JS.add (JS.ofZ (UpvoteCount post)) (JS.ofZ (DownvoteCount post))) in
       bind (console_log "Total votes: ") (fun _ =>
       bind (emit (Fetch (prompt_url post))) (fun _ => ret totalVotes)))
    totalVotes posts w
  = (Normal (accumulate totalVotes posts),
     mkWorld (ui w) (trace w ++ flat_map begin_events posts)).
Proof.
  revert totalVotes w. induction posts as [|post posts IH]; intros totalVotes w; simpl.
  - rewrite app_nil_r. by destruct w.
  - unfold bind at 1. simpl. rewrite IH. simpl. by rewrite <- !app_assoc.
Qed.

(** A run of [fetchPosts] with a stored identifier whose list fetch
    delivers [data_posts]. *)
Lemma profile_fetchPosts_run env userId data_posts (w : World State) :
  storage env = Item userId →
  JS.falsy userId = false →
  payload (posts_response env) = Some data_posts →
  settles (length data_posts) (completion_order env) = true →
  ∃ out logs,
    enriched State (prompt_response env) data_posts out ∧
    forallb isConsole logs = true ∧
    fetchPosts env w
    = (Normal tt,
       mkWorld (mkState out false (error (ui w)) (username (ui w))
                  (userLoading (ui w)) (accumulate (JS.ofZ 0) data_posts))
         (trace w ++ Fetch (host ++ "/api/user/" ++ JS.template userId ++ "/posts")
            :: flat_map begin_events data_posts ++ logs)).
Proof.
  intros Hs Hid Hdata Horder.
  destruct (enrichment_resolves (S:=State) data_posts (prompt_response env)
              (completion_order env) Horder) as (out & Hout & Henr).
  exists out.
  set (url := (host ++ "/api/user/" ++ JS.template userId ++ "/posts")%string).
  set (st1 := mkState (posts (ui w)) true (error (ui w)) (username (ui w))
                (userLoading (ui w)) (controversyScore (ui w))).
  set (w1 := mkWorld st1 ((trace w ++ [Fetch url]) ++ flat_map begin_events data_posts)).
  destruct (Hout w1) as (logs & Hrun & Hlogs).
  exists logs. repeat split; [apply Henr.. | done |].
  unfold fetchPosts. unfold bind at 1. simpl.
  unfold try_finally, try_catch.
  erewrite bind_Normal by (by apply getUserId_stored).
  rewrite Hid.
  rewrite (fetch_payload _ _ data_posts) by done.
  erewrite bind_Normal by apply profile_begin_run.
  fold url. simpl ui. simpl trace. fold st1. fold w1.
  erewrite bind_Normal by exact Hrun.
  unfold bind, setPosts, setControversyScore, setIsLoading, setState. simpl.
  by rewrite <- !app_assoc.
Qed.

(** A run of [fetchPosts] with a stored identifier whose list fetch fails. *)
Lemma profile_fetchPosts_failed env userId (w : World State) :
  storage env = Item userId →
  JS.falsy userId = false →
  payload (posts_response env) = None →
  fetchPosts env w
  = (Normal tt,
     mkWorld (mkState (posts (ui w)) false (Some "Failed to load posts")
                (username (ui w)) (userLoading (ui w)) (controversyScore (ui w)))
       (trace w ++ [Fetch (host ++ "/api/user/" ++ JS.template userId ++ "/posts");
                    ConsoleError "Error fetching posts:"])).
Proof.
  intros Hs Hid Hdata.
  unfold fetchPosts. unfold bind at 1. simpl.
  unfold try_finally, try_catch.
  erewrite bind_Normal by (by apply getUserId_stored).
  rewrite Hid.
  edestruct (fetch_no_payload (S:=State)
               (host ++ "/api/user/" ++ JS.template userId ++ "/posts")%string
               (posts_response env)) as [e He]; [exact Hdata|].
  rewrite He.
  unfold bind, console_error, emit, setError, setIsLoading, setState. simpl.
  by rewrite <- app_assoc.
Qed.

(** Runs of the two fetches without a stored identifier. *)
Lemma profile_fetchPosts_no_user env (w : World State) :
  storage env = Item None ∨ storage env = GetItemRejects →
  ∃ log, isConsole log = true ∧
    fetchPosts env w
    = (Normal tt,
       mkWorld (mkState (posts (ui w)) false (Some "User ID is not available")
                  (username (ui w)) (userLoading (ui w)) (controversyScore (ui w)))
         (trace w ++ [log])).
Proof.
  intros Hs.
  set (w1 := mkWorld (mkState (posts (ui w)) true (error (ui w)) (username (ui w))
                        (userLoading (ui w)) (controversyScore (ui w))) (trace w)).
  destruct (getUserId_null env w1 Hs) as (log & Hlog & Hrun).
  exists log. split; [done|].
  unfold fetchPosts. unfold bind at 1. simpl. fold w1.
  unfold try_finally, try_catch.
  erewrite bind_Normal by exact Hrun. done.
Qed.

Lemma profile_fetchUserData_no_user env (w : World State) :
  storage env = Item None ∨ storage env = GetItemRejects →
  ∃ log, isConsole log = true ∧
    fetchUserData env w
    = (Normal tt,
       mkWorld (mkState (posts (ui w)) (isLoading (ui w)) (Some "User ID is not available")
                  (username (ui w)) false (controversyScore (ui w)))
         (trace w ++ [log])).
Proof.
  intros Hs.
  set (w1 := mkWorld (mkState (posts (ui w)) (isLoading (ui w)) (error (ui w))
                        (username (ui w)) true (controversyScore (ui w))) (trace w)).
  destruct (getUserId_null env w1 Hs) as (log & Hlog & Hrun).
  exists log. split; [done|].
  unfold fetchUserData. unfold bind at 1. simpl. fold w1.
  unfold try_finally, try_catch.
  erewrite bind_Normal by exact Hrun. done.
Qed.

End ProfileRuns.

(** ** What the enriched list holds at each index *)

Lemma enriched_lookup {S} prompts posts out i post (w : World S) :
  enriched S prompts posts out →
  posts !! i = Some post →
  ∃ o, out !! i = Some o ∧
       (∃ promptText category, o = spread post promptText category) ∧
       (fetch_failed (prompts i) = true → o = spread post (Some "") (Some "")) ∧
       (∀ prompt, fetch_failed (prompts i) = false →
                  payload (prompts i) = Some prompt →
                  o = spread post (prompt_PromptText prompt) (prompt_Category prompt)).
Proof.
  intros [_ Henr] Hi. destruct (Henr i post Hi) as (o & Ho & Hrun).
  exists o. split; [done|]. specialize (Hrun w). repeat split.
  - destruct (withPrompt_resolves (S:=S) post (prompts i)) as (pt & cat & Hres).
    exists pt, cat. symmetry. by eapply resolves_unique.
  - intros Hfailed. symmetry. eapply resolves_unique; [|exact Hrun].
    by apply withPrompt_failed.
  - intros prompt Hok Hpayload. symmetry. eapply resolves_unique; [|exact Hrun].
    destruct (prompts i) as [|response]; [done|]. simpl in *.
    apply withPrompt_fetched.
    + by destruct (ok response).
    + by destruct (body response) as [|[|?]]; simplify_eq.
Qed.

Lemma requests_console logs : forallb isConsole logs = true → requests logs = [].
Proof.
  unfold requests. induction logs as [|e logs IH]; simpl; [done|].
  intros [He Hlogs]%andb_prop.
  rewrite filter_cons_False by (by destruct e). auto.
Qed.

Lemma requests_fetches {A} (f : A → string) l :
  requests (map (fun a => Fetch (f a)) l) = map (fun a => Fetch (f a)) l.
Proof.
  unfold requests. induction l as [|a l IH]; simpl; [done|].
  rewrite filter_cons_True by done. by rewrite IH.
Qed.

(** ** Additions that are exact *)

Lemma normalize_pow10 j m :
  JS.normalize j (m * 10 ^ N.of_nat j)%N (- Z.of_nat j) = (m, 0).
Proof.
  induction j as [|j IH].
  - simpl. by rewrite N.mul_1_r.
  - cbn [JS.normalize].
    assert ((- Z.of_nat (S j) <? 0)%Z = true) as -> by (apply Z.ltb_lt; lia).
    replace (m * 10 ^ N.of_nat (S j))%N with (m * 10 ^ N.of_nat j * 10)%N
      by (rewrite Nat2N.inj_succ, N.pow_succ_r'; lia).
    rewrite N.Div0.mod_mul, N.div_mul by done. simpl andb. cbv iota.
    replace (- Z.of_nat (S j) + 1) with (- Z.of_nat j) by lia. apply IH.
Qed.

Lemma roundToDouble_exact negative n :
  (n ≤ 2 ^ 53)%N → JS.roundToDouble negative n 1 = JS.Decimal negative n 0.
Proof.
  intros Hn. destruct (N.eq_dec n 0%N) as [-> | Hn0]; [done|].
  destruct (N.eq_dec n (2 ^ 53)%N) as [-> | Hn53]; [by vm_compute|].
  assert (Hlog : (N.log2 n < 53)%N) by (apply N.log2_lt_pow2; lia).
  unfold JS.roundToDouble, JS.log2_ratio.
  assert ((n =? 0)%N = false) as -> by (by apply N.eqb_neq).
  assert ((1 <=? n)%N = true) as -> by (apply N.leb_le; lia).
  rewrite N.div_1_r.
  rewrite Z.max_l by lia. cbv zeta.
  destruct (Z.leb_spec 0 (Z.of_N (N.log2 n) - 52)) as [Hq | Hq].
  - replace (Z.of_N (N.log2 n) - 52) with 0 by lia. simpl Z.to_N.
    rewrite N.pow_0_r, !N.mul_1_r, N.div_1_r, N.mod_1_r. simpl.
    assert ((2 ^ 1024 <=? n)%N = false) as ->; [|done].
    apply N.leb_gt. eapply N.le_lt_trans; [exact Hn|].
    apply N.pow_lt_mono_r; lia.
  - rewrite N.div_1_r, N.mod_1_r. simpl orb. cbv iota.
    set (j := Z.to_nat (- (Z.of_N (N.log2 n) - 52))).
    replace (Z.to_N (- (Z.of_N (N.log2 n) - 52))) with (N.of_nat j)
      by (unfold j; apply Z_nat_N).
    replace (Z.of_N (N.log2 n) - 52) with (- Z.of_nat j) by (unfold j; lia).
    rewrite <- N.mul_assoc, <- N.pow_mul_l. change (2 * 5)%N with 10%N.
    by rewrite normalize_pow10.
Qed.

Lemma ofZ_exact z : 0 ≤ z ≤ 2 ^ 53 → JS.ofZ z = JS.Decimal false (Z.to_N z) 0.
Proof.
  intros Hz. unfold JS.ofZ, JS.toDouble.
  assert ((z <? 0)%Z = false) as -> by (apply Z.ltb_ge; lia).
  simpl. rewrite N.mul_1_r, Z.abs_eq by lia.
  apply roundToDouble_exact. change (2 ^ 53)%N with (Z.to_N (2 ^ 53)). lia.
Qed.

Lemma add_exact a b :
  0 ≤ a → 0 ≤ b → a + b ≤ 2 ^ 53 →
  JS.add (JS.Decimal false (Z.to_N a) 0) (JS.Decimal false (Z.to_N b) 0)
  = JS.Decimal false (Z.to_N (a + b)) 0.
Proof.
  intros Ha Hb Hab. unfold JS.add. cbv zeta. rewrite Z.min_id, Z.sub_diag.
  rewrite !Z2N.id by done.
  replace (1 * a * 10 ^ 0 + 1 * b * 10 ^ 0) with (a + b) by lia.
  destruct (Z.eqb_spec (a + b) 0) as [-> | Hne]; [done|].
  unfold JS.toDouble.
  assert ((a + b <? 0)%Z = false) as -> by (apply Z.ltb_ge; lia).
  simpl. rewrite N.mul_1_r, Z.abs_eq by lia.
  apply roundToDouble_exact. change (2 ^ 53)%N with (Z.to_N (2 ^ 53)). lia.
Qed.

Lemma sum_votes_nonneg posts :
  Forall (fun post => 0 ≤ UpvoteCount post ∧ 0 ≤ DownvoteCount post) posts →
  0 ≤ sum_votes posts.
Proof.
  unfold sum_votes. induction 1 as [|post posts [Hu Hd] _ IH]; simpl; lia.
Qed.

(** While the running total stays within [2^53], the accumulated number is
    the exact sum. *)
Lemma accumulate_exact posts total :
  Forall (fun post => 0 ≤ UpvoteCount post ∧ 0 ≤ DownvoteCount post) posts →
  0 ≤ total →
  total + sum_votes posts ≤ 2 ^ 53 →
  accumulate (JS.Decimal false (Z.to_N total) 0) posts
  = JS.Decimal false (Z.to_N (total + sum_votes posts)) 0.
Proof.
  intros Hposts. revert total.
  induction Hposts as [|post posts [Hu Hd] Hposts IH]; intros total Htotal Hsum.
  - unfold sum_votes. simpl. by rewrite Z.add_0_r.
  - pose proof (sum_votes_nonneg posts Hposts) as Hrest.
    change (sum_votes (post :: posts))
      with (UpvoteCount post + DownvoteCount post + sum_votes posts) in *.
    unfold accumulate. simpl. fold (accumulate).
    rewrite !ofZ_exact by lia.
    rewrite (add_exact (UpvoteCount post) (DownvoteCount post)) by lia.
    rewrite (add_exact total) by lia.
    change (fold_left _ posts ?x) with (accumulate x posts).
    rewrite IH by lia. f_equal. lia.
Qed.

Lemma enriched_is_enrichment {S} prompts posts out i post (w : World S) :
  enriched S prompts posts out →
  posts !! i = Some post →
  ∃ o, out !! i = Some o ∧ is_enrichment (prompts i) post o.
Proof.
  intros [_ Henr] Hi. destruct (Henr i post Hi) as (o & Ho & Hrun).
  exists o. split; [done|]. specialize (Hrun w). unfold is_enrichment.
  destruct (fetch_failed (prompts i)) eqn:Hfailed.
  { rewrite <- (resolves_unique _ _ _ w (withPrompt_failed post _ Hfailed) Hrun).
    by repeat split. }
  destruct (payload (prompts i)) as [prompt|] eqn:Hpayload.
  - destruct (prompts i) as [|response] eqn:Hp; [done|]. simpl in *.
    assert (Hres : resolves (S:=S) (withPrompt post (Resolved response))
                     (spread post (prompt_PromptText prompt) (prompt_Category prompt))).
    { apply withPrompt_fetched.
      - by destruct (ok response).
      - by destruct (body response) as [|[|?]]; simplify_eq. }
    rewrite <- (resolves_unique _ _ _ w Hres Hrun). by repeat split.
  - rewrite <- (resolves_unique _ _ _ w (withPrompt_undecoded post _ Hpayload) Hrun).
    by repeat split.
Qed.

(** * The claims *)

(** C1.  In either screen the [Promise.all] fan-out returns a list of the
    same length as the list it was given, and its i-th entry is the
    enrichment of the i-th input post, whatever the order in which the
    concurrent prompt fetches complete (provided each of them settles): the
    posts stored by [fetchPosts] keep the five fields of the i-th post and
    carry the [PromptText] and [Category] of its own prompt fetch (the
    decoded prompt's on success, the empty string otherwise), which is also
    what the callback returns when run on that post alone. *)
Theorem C1_enrichment_keeps_order
    (tenv : Trending.Env) (data : list Post) (wt : World Trending.State)
    (penv : ProfileScreen.Env) (userId : option string) (data_posts : list Post)
    (wp : World ProfileScreen.State) :
  let sortedPosts := JS.slice 0 20 (JS.sort Trending.byUpvotes data) in
  payload (Trending.posts_response tenv) = Some data →
  settles (length sortedPosts) (Trending.completion_order tenv) = true →
  ProfileScreen.storage penv = ProfileScreen.Item userId →
  JS.falsy userId = false →
  payload (ProfileScreen.posts_response penv) = Some data_posts →
  settles (length data_posts) (ProfileScreen.completion_order penv) = true →
  (∃ wt', Trending.fetchPosts tenv wt = (Normal tt, wt') ∧
          length (Trending.posts (ui wt')) = length sortedPosts ∧
          (∀ i post, sortedPosts !! i = Some post →
             ∃ o, Trending.posts (ui wt') !! i = Some o ∧
                  is_enrichment (Trending.prompt_response tenv i) post o) ∧
          enriched Trending.State (Trending.prompt_response tenv) sortedPosts
            (Trending.posts (ui wt'))) ∧
  (∃ wp', ProfileScreen.fetchPosts penv wp = (Normal tt, wp') ∧
          length (ProfileScreen.posts (ui wp')) = length data_posts ∧
          (∀ i post, data_posts !! i = Some post →
             ∃ o, ProfileScreen.posts (ui wp') !! i = Some o ∧
                  is_enrichment (ProfileScreen.prompt_response penv i) post o) ∧
          enriched ProfileScreen.State (ProfileScreen.prompt_response penv) data_posts
            (ProfileScreen.posts (ui wp'))).
Proof.
  intros sortedPosts Hdata Horder Hs Hid Hposts Horder'. split.
  - destruct (trending_fetchPosts_run tenv data wt Hdata Horder)
      as (out & logs & Henr & _ & Hrun).
    eexists. split; [exact Hrun|]. simpl. split; [apply Henr|]. split; [|exact Henr].
    intros i post Hi. by apply (enriched_is_enrichment _ _ _ _ _ wt Henr).
  - destruct (profile_fetchPosts_run penv userId data_posts wp Hs Hid Hposts Horder')
      as (out & logs & Henr & _ & Hrun).
    eexists. split; [exact Hrun|]. simpl. split; [apply Henr|]. split; [|exact Henr].
    intros i post Hi. by apply (enriched_is_enrichment _ _ _ _ _ wp Henr).
Qed.

Lemma C1_enrichment_keeps_order_witness :
  (∃ wt', Trending.fetchPosts Sample.trending Sample.trending_start = (Normal tt, wt') ∧
          length (Trending.posts (ui wt')) = length [Sample.first; Sample.second] ∧
          (∀ i post, [Sample.first; Sample.second] !! i = Some post →
             ∃ o, Trending.posts (ui wt') !! i = Some o ∧
                  is_enrichment (Sample.prompts i) post o) ∧
          enriched Trending.State Sample.prompts [Sample.first; Sample.second]
            (Trending.posts (ui wt'))) ∧
  (∃ wp', ProfileScreen.fetchPosts Sample.profile Sample.profile_start = (Normal tt, wp') ∧
          length (ProfileScreen.posts (ui wp')) = length [Sample.first; Sample.second] ∧
          (∀ i post, [Sample.first; Sample.second] !! i = Some post →
             ∃ o, ProfileScreen.posts (ui wp') !! i = Some o ∧
                  is_enrichment (Sample.prompts i) post o) ∧
          enriched ProfileScreen.State Sample.prompts [Sample.first; Sample.second]
            (ProfileScreen.posts (ui wp'))).
Proof.
  apply (C1_enrichment_keeps_order Sample.trending [Sample.second; Sample.first]
           Sample.trending_start Sample.profile (Some "7")
           [Sample.first; Sample.second] Sample.profile_start);
    reflexivity.
Defined.

(** C2.  In either screen, a post whose prompt fetch fails (a rejected
    fetch or a non-success response) is still in the stored list, at its
    own index, with [PromptText] and [Category] equal to the empty string;
    the batch is not rejected ([fetchPosts] completes normally, the list
    keeps its length, and the profile screen's error state is untouched). *)
Theorem C2_failed_prompt_falls_back
    (tenv : Trending.Env) (data : list Post) (wt : World Trending.State)
    (penv : ProfileScreen.Env) (userId : option string) (data_posts : list Post)
    (wp : World ProfileScreen.State) (i j : nat) (post post' : Post) :
  let sortedPosts := JS.slice 0 20 (JS.sort Trending.byUpvotes data) in
  payload (Trending.posts_response tenv) = Some data →
  settles (length sortedPosts) (Trending.completion_order tenv) = true →
  sortedPosts !! i = Some post →
  fetch_failed (Trending.prompt_response tenv i) = true →
  ProfileScreen.storage penv = ProfileScreen.Item userId →
  JS.falsy userId = false →
  payload (ProfileScreen.posts_response penv) = Some data_posts →
  settles (length data_posts) (ProfileScreen.completion_order penv) = true →
  data_posts !! j = Some post' →
  fetch_failed (ProfileScreen.prompt_response penv j) = true →
  (∃ wt' o, Trending.fetchPosts tenv wt = (Normal tt, wt') ∧
            length (Trending.posts (ui wt')) = length sortedPosts ∧
            Trending.posts (ui wt') !! i = Some o ∧
            o = spread post (Some "") (Some "") ∧
            PromptText o = Some "" ∧ Category o = Some "") ∧
  (∃ wp' o, ProfileScreen.fetchPosts penv wp = (Normal tt, wp') ∧
            length (ProfileScreen.posts (ui wp')) = length data_posts ∧
            ProfileScreen.error (ui wp') = ProfileScreen.error (ui wp) ∧
            ProfileScreen.posts (ui wp') !! j = Some o ∧
            o = spread post' (Some "") (Some "") ∧
            PromptText o = Some "" ∧ Category o = Some "").
Proof.
  intros sortedPosts Hdata Horder Hi Hfailed Hs Hid Hposts Horder' Hj Hfailed'. split.
  - destruct (trending_fetchPosts_run tenv data wt Hdata Horder)
      as (out & logs & Henr & _ & Hrun).
    destruct (enriched_lookup _ _ _ _ _ wt Henr Hi) as (o & Ho & _ & Hfb & _).
    exists (Trending.fetchPosts tenv wt).2, o. rewrite Hrun. simpl.
    rewrite <- (Hfb Hfailed). repeat split; try done; [apply Henr | by rewrite (Hfb Hfailed)..].
  - destruct (profile_fetchPosts_run penv userId data_posts wp Hs Hid Hposts Horder')
      as (out & logs & Henr & _ & Hrun).
    destruct (enriched_lookup _ _ _ _ _ wp Henr Hj) as (o & Ho & _ & Hfb & _).
    exists (ProfileScreen.fetchPosts penv wp).2, o. rewrite Hrun. simpl.
    rewrite <- (Hfb Hfailed'). repeat split; try done; [apply Henr | by rewrite (Hfb Hfailed')..].
Qed.

Lemma C2_failed_prompt_falls_back_witness :
  (∃ wt' o, Trending.fetchPosts Sample.trending Sample.trending_start = (Normal tt, wt') ∧
            length (Trending.posts (ui wt')) = length [Sample.first; Sample.second] ∧
            Trending.posts (ui wt') !! 1%nat = Some o ∧
            o = spread Sample.second (Some "") (Some "") ∧
            PromptText o = Some "" ∧ Category o = Some "") ∧
  (∃ wp' o, ProfileScreen.fetchPosts Sample.profile Sample.profile_start = (Normal tt, wp') ∧
            length (ProfileScreen.posts (ui wp')) = length [Sample.first; Sample.second] ∧
            ProfileScreen.error (ui wp') = ProfileScreen.error (ui Sample.profile_start) ∧
            ProfileScreen.posts (ui wp') !! 1%nat = Some o ∧
            o = spread Sample.second (Some "") (Some "") ∧
            PromptText o = Some "" ∧ Category o = Some "").
Proof.
  apply (C2_failed_prompt_falls_back Sample.trending [Sample.second; Sample.first]
           Sample.trending_start Sample.profile (Some "7")
           [Sample.first; Sample.second] Sample.profile_start
           1%nat 1%nat Sample.second Sample.second);
    reflexivity.
Defined.

(** C3 as stated fails: the score is accumulated by additions of doubles.
    With the two posts of vote counts (2^53, 1) and (2, 0) the exact sum is
    9007199254740995 and the score set is 9007199254740994. *)
Lemma C3_counterexample :
  let posts :=
    [ {| PostID := "1"; PromptID := "10"; PostText := "first";
         UpvoteCount := 2 ^ 53; DownvoteCount := 1;
         PromptText := None; Category := None |};
      Sample.second ] in
  let env :=
    ProfileScreen.mkEnv (ProfileScreen.Item (Some "7")) Rejected
      (Sample.delivered posts) Sample.prompts [0; 1]%nat in
  foldr Z.add 0 (map (fun post => UpvoteCount post + DownvoteCount post) posts)
  = 9007199254740995 ∧
  ∃ w', ProfileScreen.fetchPosts env Sample.profile_start = (Normal tt, w') ∧
        ProfileScreen.controversyScore (ui w') = JS.Decimal false 9007199254740994 0.
Proof. split; [reflexivity|]. eexists. split; vm_compute; reflexivity. Qed.

(** C3, amended.  For every list of posts the profile screen fetches whose
    vote counts are non-negative and sum to at most 2^53, the controversy
    score it sets is the number holding the exact sum of
    [UpvoteCount + DownvoteCount] over that list, each post counted once;
    nothing is assumed of the prompt fetches, so the score is the same
    whether they succeed or fail and in whatever order they complete. *)
Theorem C3_controversy_score_is_vote_sum
    (env : ProfileScreen.Env) (userId : option string) (data_posts : list Post)
    (w : World ProfileScreen.State) :
  ProfileScreen.storage env = ProfileScreen.Item userId →
  JS.falsy userId = false →
  payload (ProfileScreen.posts_response env) = Some data_posts →
  settles (length data_posts) (ProfileScreen.completion_order env) = true →
  Forall (fun post => 0 ≤ UpvoteCount post ∧ 0 ≤ DownvoteCount post) data_posts →
  foldr Z.add 0 (map (fun post => UpvoteCount post + DownvoteCount post) data_posts)
  ≤ 2 ^ 53 →
  ∃ w', ProfileScreen.fetchPosts env w = (Normal tt, w') ∧
        ProfileScreen.controversyScore (ui w')
        = JS.Decimal false
            (Z.to_N (foldr Z.add 0
                       (map (fun post => UpvoteCount post + DownvoteCount post)
                          data_posts))) 0.
Proof.
  intros Hs Hid Hposts Horder Hcounts Hsum.
  destruct (profile_fetchPosts_run env userId data_posts w Hs Hid Hposts Horder)
    as (out & logs & _ & _ & Hrun).
  eexists. split; [exact Hrun|]. simpl.
  rewrite (ofZ_exact 0) by lia.
  by rewrite (accumulate_exact data_posts 0 Hcounts) by (by fold (sum_votes data_posts)).
Qed.

Lemma C3_controversy_score_is_vote_sum_witness :
  ∃ w', ProfileScreen.fetchPosts Sample.profile Sample.profile_start = (Normal tt, w') ∧
        ProfileScreen.controversyScore (ui w')
        = JS.Decimal false
            (Z.to_N (foldr Z.add 0
                       (map (fun post => UpvoteCount post + DownvoteCount post)
                          [Sample.first; Sample.second]))) 0.
Proof.
  apply (C3_controversy_score_is_vote_sum Sample.profile (Some "7")
           [Sample.first; Sample.second] Sample.profile_start);
    [reflexivity | reflexivity | reflexivity | reflexivity
    | repeat constructor; simpl; lia | vm_compute; discriminate].
Defined.

(** C4.  When the trending screen fetches more than 20 posts, the posts it
    stores are the enrichment of exactly the first 20 entries of the fetched
    list sorted by [UpvoteCount] in descending order ([sorted] is a
    permutation of the fetched list in descending order; the order among
    equal counts is not stated), and sorting and truncation come before
    enrichment: the prompt requests issued are those of these 20 posts, in
    their order. *)
Theorem C4_trending_top_twenty
    (env : Trending.Env) (data : list Post) (w : World Trending.State) :
  payload (Trending.posts_response env) = Some data →
  (20 < length data)%nat →
  settles 20 (Trending.completion_order env) = true →
  ∃ sorted w',
    sorted ≡ₚ data ∧
    StronglySorted descending sorted ∧
    Trending.fetchPosts env w = (Normal tt, w') ∧
    length (Trending.posts (ui w')) = 20%nat ∧
    enriched Trending.State (Trending.prompt_response env) (take 20 sorted)
      (Trending.posts (ui w')) ∧
    map UpvoteCount (Trending.posts (ui w')) = map UpvoteCount (take 20 sorted) ∧
    map PostID (Trending.posts (ui w')) = map PostID (take 20 sorted) ∧
    requests (trace w')
    = requests (trace w) ++ Fetch (host ++ "/api/posts")
        :: map (fun post => Fetch (prompt_url post)) (take 20 sorted).
Proof.
  intros Hdata Hlen Horder.
  set (sorted := JS.sort Trending.byUpvotes data).
  assert (Hslice : JS.slice 0 20 sorted = take 20 sorted).
  { unfold JS.slice. by rewrite drop_0. }
  assert (Hlen20 : length (take 20 sorted) = 20%nat).
  { rewrite length_take. unfold sorted. rewrite sort_length. lia. }
  destruct (trending_fetchPosts_run env data w Hdata) as (out & logs & Henr & Hlogs & Hrun).
  { fold sorted. by rewrite Hslice, Hlen20. }
  fold sorted in Henr, Hrun. rewrite Hslice in Henr, Hrun.
  assert (Hout : ∀ i o, out !! i = Some o →
            ∃ post pt cat, take 20 sorted !! i = Some post ∧ o = spread post pt cat).
  { intros i o Ho.
    destruct (take 20 sorted !! i) as [post|] eqn:Hi.
    - destruct (enriched_lookup _ _ _ _ _ w Henr Hi) as (o' & Ho' & (pt & cat & ->) & _).
      exists post, pt, cat. split; [done | congruence].
    - apply lookup_ge_None in Hi. apply lookup_lt_Some in Ho.
      destruct Henr as [Hl _]. lia. }
  assert (Hmap : ∀ {T} (f : Post → T),
            (∀ post pt cat, f (spread post pt cat) = f post) →
            map f out = map f (take 20 sorted)).
  { intros T f Hf. apply list_eq. intros i.
    change (map f) with (fmap (M:=list) f). rewrite !list_lookup_fmap.
    destruct (out !! i) as [o|] eqn:Ho.
    - destruct (Hout i o Ho) as (post & pt & cat & -> & ->). simpl. by rewrite Hf.
    - apply lookup_ge_None in Ho. destruct Henr as [Hl _].
      rewrite (proj2 (lookup_ge_None _ i)) by lia. done. }
  exists sorted. eexists. split; [apply sort_Permutation|].
  split; [apply sort_descending|]. split; [exact Hrun|]. simpl.
  split; [destruct Henr as [Hl _]; lia|]. split; [done|].
  split; [by apply Hmap|]. split; [by apply Hmap|].
  unfold requests. rewrite filter_app. f_equal.
  rewrite filter_cons_True by reflexivity. f_equal.
  rewrite filter_app. fold (requests logs). rewrite (requests_console logs Hlogs).
  rewrite app_nil_r. apply requests_fetches.
Qed.

Lemma C4_trending_top_twenty_witness :
  ∃ sorted w',
    sorted ≡ₚ Sample.many ∧
    StronglySorted descending sorted ∧
    Trending.fetchPosts Sample.trending_many Sample.trending_start = (Normal tt, w') ∧
    length (Trending.posts (ui w')) = 20%nat ∧
    enriched Trending.State Sample.prompts (take 20 sorted) (Trending.posts (ui w')) ∧
    map UpvoteCount (Trending.posts (ui w')) = map UpvoteCount (take 20 sorted) ∧
    map PostID (Trending.posts (ui w')) = map PostID (take 20 sorted) ∧
    requests (trace w')
    = requests (trace Sample.trending_start) ++ Fetch (host ++ "/api/posts")
        :: map (fun post => Fetch (prompt_url post)) (take 20 sorted).
Proof.
  apply (C4_trending_top_twenty Sample.trending_many Sample.many Sample.trending_start);
    [reflexivity | vm_compute; lia | reflexivity].
Defined.

(** C5 as stated fails: with a category selected the component still maps
    over every stored post.  After the sample fetch and a press on "music",
    the two posts rendered have categories "sports" and "". *)
Lemma C5_counterexample :
  let w1 := (Trending.fetchPosts Sample.trending Sample.trending_start).2 in
  let st := ui (Trending.handleCategoryPress "music" w1).2 in
  Trending.selectedCategory st = "music" ∧
  map Category (Trending.posts st) = [Some "sports"; Some ""] ∧
  ∃ buttons, Trending.render st = Trending.Screen buttons (map Trending.card (Trending.posts st)).
Proof. vm_compute. repeat split. eexists. reflexivity. Qed.

(** C5, amended.  A press on a category leaves the fetched posts unchanged,
    and the screen renders a card for every one of them whatever the
    selection (the selection only marks the pressed button); a press on the
    active category returns the selection to 'all', and two presses in
    succession on a category that was not active (in particular from 'all')
    return it to 'all'. *)
Theorem C5_category_press_toggles_selection
    (categoryId : string) (w : World Trending.State) :
  Trending.loading (ui w) = false →
  ∃ w1 w2,
    Trending.handleCategoryPress categoryId w = (Normal tt, w1) ∧
    Trending.handleCategoryPress categoryId w1 = (Normal tt, w2) ∧
    Trending.posts (ui w1) = Trending.posts (ui w) ∧
    Trending.render (ui w1)
    = Trending.Screen
        (map (fun category =>
                (category.1, String.eqb (Trending.selectedCategory (ui w1)) category.1))
             Trending.categories)
        (map Trending.card (Trending.posts (ui w))) ∧
    (Trending.selectedCategory (ui w) = categoryId →
     Trending.selectedCategory (ui w1) = "all") ∧
    (Trending.selectedCategory (ui w) ≠ categoryId →
     Trending.selectedCategory (ui w1) = categoryId ∧
     Trending.selectedCategory (ui w2) = "all").
Proof.
  intros Hloading. destruct w as [[posts loading selected] t]. simpl in Hloading. subst.
  do 2 eexists. split; [reflexivity|]. split; [reflexivity|]. simpl.
  split; [done|]. split; [done|]. split.
  - intros ->. by rewrite String.eqb_refl.
  - intros Hne. apply String.eqb_neq in Hne. rewrite Hne. simpl.
    by rewrite String.eqb_refl.
Qed.

Lemma C5_category_press_toggles_selection_witness :
  let w := (Trending.fetchPosts Sample.trending Sample.trending_start).2 in
  ∃ w1 w2,
    Trending.handleCategoryPress "sports" w = (Normal tt, w1) ∧
    Trending.handleCategoryPress "sports" w1 = (Normal tt, w2) ∧
    Trending.posts (ui w1) = Trending.posts (ui w) ∧
    Trending.render (ui w1)
    = Trending.Screen
        (map (fun category =>
                (category.1, String.eqb (Trending.selectedCategory (ui w1)) category.1))
             Trending.categories)
        (map Trending.card (Trending.posts (ui w))) ∧
    (Trending.selectedCategory (ui w) = "sports" →
     Trending.selectedCategory (ui w1) = "all") ∧
    (Trending.selectedCategory (ui w) ≠ "sports" →
     Trending.selectedCategory (ui w1) = "sports" ∧
     Trending.selectedCategory (ui w2) = "all").
Proof.
  apply (C5_category_press_toggles_selection "sports"
           (Trending.fetchPosts Sample.trending Sample.trending_start).2).
  reflexivity.
Defined.

(** On the trending screen the guard of [handlePostPress] holds for every
    input: a [NaN] identifier is reported and nothing is dispatched. *)
Lemma handlePostPress_guard broken postId promptId (w : World Trending.State) :
  JS.isNaN (JS.Number postId) || JS.isNaN (JS.Number promptId) = true →
  Trending.handlePostPress broken postId promptId w
  = (Normal tt,
     mkWorld (ui w) (trace w ++ [ConsoleError "Invalid postId or promptId format"])).
Proof. intros H. unfold Trending.handlePostPress, try_catch. by rewrite H. Qed.

(** [handlePostPress] never throws to its caller. *)
Lemma handlePostPress_returns broken postId promptId (w : World Trending.State) :
  ∃ w', Trending.handlePostPress broken postId promptId w = (Normal tt, w').
Proof.
  unfold Trending.handlePostPress, try_catch, navigate.
  destruct (_ || _); [by eexists|]. destruct broken; by eexists.
Qed.

(** On the profile screen [navigateToReplies] dispatches whatever [Number]
    returns, and a throw of the navigator reaches the caller. *)
Lemma navigateToReplies_dispatches broken postId promptId (w : World ProfileScreen.State) :
  ProfileScreen.navigateToReplies broken postId promptId w
  = if broken then (Throw NavigationError, w)
    else (Normal tt,
          mkWorld (ui w)
            (trace w ++ [Navigate "Replies" (JS.Number postId) (JS.Number promptId)])).
Proof. unfold ProfileScreen.navigateToReplies, navigate. by destruct broken. Qed.

(** C6 at the input [postId = "abc"], [promptId = "10"]: the trending screen
    reports the failure and dispatches nothing; the profile screen dispatches
    a navigation to Replies whose [postId] is [NaN]. *)
Theorem C6_non_numeric_post_id :
  JS.isNaN (JS.Number "abc") = true ∧
  Trending.handlePostPress false "abc" "10" Sample.trending_start
  = (Normal tt,
     mkWorld Trending.initial [ConsoleError "Invalid postId or promptId format"]) ∧
  ProfileScreen.navigateToReplies false "abc" "10" Sample.profile_start
  = (Normal tt,
     mkWorld ProfileScreen.initial [Navigate "Replies" JS.NaN (JS.Decimal false 10 0)]).
Proof. repeat split. Qed.

(** C7.  When [getUserId] resolves to [null] (nothing is stored, or the
    storage read fails), the user-data fetch and the posts fetch each set
    the error state and return: the trace gains no request, and the posts
    and the score are left as they were (no enrichment takes place). *)
Theorem C7_no_user_id_short_circuits
    (env : ProfileScreen.Env) (w : World ProfileScreen.State) :
  ProfileScreen.storage env = ProfileScreen.Item None ∨
  ProfileScreen.storage env = ProfileScreen.GetItemRejects →
  (∃ w', ProfileScreen.fetchUserData env w = (Normal tt, w') ∧
         ProfileScreen.error (ui w') = Some "User ID is not available" ∧
         ProfileScreen.userLoading (ui w') = false ∧
         requests (trace w') = requests (trace w) ∧
         ProfileScreen.posts (ui w') = ProfileScreen.posts (ui w) ∧
         ProfileScreen.controversyScore (ui w') = ProfileScreen.controversyScore (ui w)) ∧
  (∃ w', ProfileScreen.fetchPosts env w = (Normal tt, w') ∧
         ProfileScreen.error (ui w') = Some "User ID is not available" ∧
         ProfileScreen.isLoading (ui w') = false ∧
         requests (trace w') = requests (trace w) ∧
         ProfileScreen.posts (ui w') = ProfileScreen.posts (ui w) ∧
         ProfileScreen.controversyScore (ui w') = ProfileScreen.controversyScore (ui w)).
Proof.
  intros Hs. split.
  - destruct (profile_fetchUserData_no_user env w Hs) as (log & Hlog & Hrun).
    eexists. split; [exact Hrun|]. simpl. repeat split.
    unfold requests. rewrite filter_app. fold (requests [log]).
    rewrite (requests_console [log]) by (simpl; by rewrite Hlog).
    by rewrite app_nil_r.
  - destruct (profile_fetchPosts_no_user env w Hs) as (log & Hlog & Hrun).
    eexists. split; [exact Hrun|]. simpl. repeat split.
    unfold requests. rewrite filter_app. fold (requests [log]).
    rewrite (requests_console [log]) by (simpl; by rewrite Hlog).
    by rewrite app_nil_r.
Qed.

Lemma C7_no_user_id_short_circuits_witness :
  (∃ w', ProfileScreen.fetchUserData Sample.logged_out Sample.profile_start = (Normal tt, w') ∧
         ProfileScreen.error (ui w') = Some "User ID is not available" ∧
         ProfileScreen.userLoading (ui w') = false ∧
         requests (trace w') = requests (trace Sample.profile_start) ∧
         ProfileScreen.posts (ui w') = ProfileScreen.posts (ui Sample.profile_start) ∧
         ProfileScreen.controversyScore (ui w')
         = ProfileScreen.controversyScore (ui Sample.profile_start)) ∧
  (∃ w', ProfileScreen.fetchPosts Sample.logged_out Sample.profile_start = (Normal tt, w') ∧
         ProfileScreen.error (ui w') = Some "User ID is not available" ∧
         ProfileScreen.isLoading (ui w') = false ∧
         requests (trace w') = requests (trace Sample.profile_start) ∧
         ProfileScreen.posts (ui w') = ProfileScreen.posts (ui Sample.profile_start) ∧
         ProfileScreen.controversyScore (ui w')
         = ProfileScreen.controversyScore (ui Sample.profile_start)).
Proof.
  apply (C7_no_user_id_short_circuits Sample.logged_out Sample.profile_start).
  left. reflexivity.
Defined.

(** C8 at a rejected list fetch.  The profile screen (its user data
    loaded) catches the failure, sets the error 'Failed to load posts' and
    renders it.  The trending
    screen catches it too and stores nothing, but its [catch] only writes to
    the console: the screen then shows exactly what it shows after a
    successful fetch of an empty list, a page without post cards and without
    any error text. *)
Theorem C8_trending_failure_is_only_logged :
  let down := (Trending.fetchPosts Sample.trending_down Sample.trending_start).2 in
  let empty := (Trending.fetchPosts Sample.trending_empty Sample.trending_start).2 in
  let env :=
    ProfileScreen.mkEnv (ProfileScreen.Item (Some "7"))
      (Sample.delivered {| UserID := "7"; Username := "ann" |})
      Rejected Sample.prompts [] in
  let profile :=
    (ProfileScreen.fetchPosts env
       (ProfileScreen.fetchUserData env Sample.profile_start).2).2 in
  ProfileScreen.error (ui profile) = Some "Failed to load posts" ∧
  ProfileScreen.renderPosts (ui profile) = ProfileScreen.ErrorText "Failed to load posts" ∧
  trace down = [Fetch (host ++ "/api/posts"); ConsoleError "Error fetching data:"] ∧
  Trending.posts (ui down) = [] ∧
  Trending.render (ui down) = Trending.render (ui empty) ∧
  ∃ buttons, Trending.render (ui down) = Trending.Screen buttons [].
Proof. vm_compute. repeat split. eexists. reflexivity. Qed.

(** What each screen does when the list fetch fails (the fetch is rejected,
    the body does not decode, or the decoded value is not of the expected
    shape): the failure is caught and halts the pipeline; [fetchPosts]
    returns, no prompt is requested, the stored posts are untouched and
    loading is switched off.  The profile screen sets and renders the error
    string 'Failed to load posts'; the trending screen writes the failure to
    the console only. *)
Lemma list_fetch_failure_is_caught
    (tenv : Trending.Env) (wt : World Trending.State)
    (penv : ProfileScreen.Env) (userId : option string) (wp : World ProfileScreen.State) :
  payload (Trending.posts_response tenv) = None →
  ProfileScreen.storage penv = ProfileScreen.Item userId →
  JS.falsy userId = false →
  payload (ProfileScreen.posts_response penv) = None →
  (∃ wt', Trending.fetchPosts tenv wt = (Normal tt, wt') ∧
          Trending.posts (ui wt') = Trending.posts (ui wt) ∧
          Trending.loading (ui wt') = false ∧
          trace wt' = trace wt ++ [Fetch (host ++ "/api/posts");
                                   ConsoleError "Error fetching data:"] ∧
          ∃ buttons, Trending.render (ui wt')
                     = Trending.Screen buttons (map Trending.card (Trending.posts (ui wt)))) ∧
  (∃ wp', ProfileScreen.fetchPosts penv wp = (Normal tt, wp') ∧
          ProfileScreen.posts (ui wp') = ProfileScreen.posts (ui wp) ∧
          ProfileScreen.controversyScore (ui wp') = ProfileScreen.controversyScore (ui wp) ∧
          ProfileScreen.isLoading (ui wp') = false ∧
          ProfileScreen.error (ui wp') = Some "Failed to load posts" ∧
          trace wp' = trace wp
                      ++ [Fetch (host ++ "/api/user/" ++ JS.template userId ++ "/posts");
                          ConsoleError "Error fetching posts:"] ∧
          ProfileScreen.renderPosts (ui wp') = ProfileScreen.ErrorText "Failed to load posts").
Proof.
  intros Hdata Hs Hid Hposts. split.
  - eexists. split; [by apply trending_fetchPosts_failed|].
    repeat split. by eexists.
  - eexists. split; [by eapply profile_fetchPosts_failed|]. by repeat split.
Qed.

Lemma list_fetch_failure_is_caught_witness :
  (∃ wt', Trending.fetchPosts Sample.trending_down Sample.trending_start = (Normal tt, wt') ∧
          Trending.posts (ui wt') = Trending.posts (ui Sample.trending_start) ∧
          Trending.loading (ui wt') = false ∧
          trace wt' = trace Sample.trending_start
                      ++ [Fetch (host ++ "/api/posts"); ConsoleError "Error fetching data:"] ∧
          ∃ buttons, Trending.render (ui wt')
                     = Trending.Screen buttons
                         (map Trending.card (Trending.posts (ui Sample.trending_start)))) ∧
  (∃ wp', ProfileScreen.fetchPosts Sample.profile_down Sample.profile_start = (Normal tt, wp') ∧
          ProfileScreen.posts (ui wp') = ProfileScreen.posts (ui Sample.profile_start) ∧
          ProfileScreen.controversyScore (ui wp')
          = ProfileScreen.controversyScore (ui Sample.profile_start) ∧
          ProfileScreen.isLoading (ui wp') = false ∧
          ProfileScreen.error (ui wp') = Some "Failed to load posts" ∧
          trace wp' = trace Sample.profile_start
                      ++ [Fetch (host ++ "/api/user/" ++ JS.template (Some "7") ++ "/posts");
                          ConsoleError "Error fetching posts:"] ∧
          ProfileScreen.renderPosts (ui wp') = ProfileScreen.ErrorText "Failed to load posts").
Proof.
  apply (list_fetch_failure_is_caught Sample.trending_down Sample.trending_start
           Sample.profile_down (Some "7") Sample.profile_start);
    reflexivity.
Defined.

(** C9 at a list fetch that completes with an empty list.  The profile
    screen (its user data loaded) renders the text 'No posts yet', which is
    neither its loading indicator nor its error text.  The trending screen
    has no such branch: it renders a page with no post cards and no text in
    their place, the same view as after a failed list fetch. *)
Theorem C9_trending_empty_list_has_no_text :
  let empty := ui (Trending.fetchPosts Sample.trending_empty Sample.trending_start).2 in
  let down := ui (Trending.fetchPosts Sample.trending_down Sample.trending_start).2 in
  let env :=
    ProfileScreen.mkEnv (ProfileScreen.Item (Some "7"))
      (Sample.delivered {| UserID := "7"; Username := "ann" |})
      (Sample.delivered []) Sample.prompts [] in
  let profile :=
    ui (ProfileScreen.fetchPosts env
          (ProfileScreen.fetchUserData env Sample.profile_start).2).2 in
  ProfileScreen.renderPosts profile = ProfileScreen.EmptyText "No posts yet" ∧
  Trending.render empty
  = Trending.Screen
      (map (fun category => (category.1, false)) Trending.categories) [] ∧
  Trending.render empty = Trending.render down.
Proof. vm_compute. by repeat split. Qed.

(** What each screen renders after a list fetch that completes with an
    empty list.  On the profile screen, when no error is set, [renderPosts]
    returns the text 'No posts yet', which is neither the loading indicator
    nor an error text.  On the trending screen the page has no post cards. *)
Lemma empty_list_rendering
    (tenv : Trending.Env) (wt : World Trending.State)
    (penv : ProfileScreen.Env) (userId : option string) (wp : World ProfileScreen.State) :
  payload (Trending.posts_response tenv) = Some [] →
  ProfileScreen.storage penv = ProfileScreen.Item userId →
  JS.falsy userId = false →
  payload (ProfileScreen.posts_response penv) = Some [] →
  JS.falsy (ProfileScreen.error (ui wp)) = true →
  (∃ wt' buttons,
     Trending.fetchPosts tenv wt = (Normal tt, wt') ∧
     Trending.render (ui wt') = Trending.Screen buttons [] ∧
     Trending.render (ui wt') ≠ Trending.ActivityIndicator) ∧
  (∃ wp',
     ProfileScreen.fetchPosts penv wp = (Normal tt, wp') ∧
     ProfileScreen.renderPosts (ui wp') = ProfileScreen.EmptyText "No posts yet" ∧
     ProfileScreen.renderPosts (ui wp') ≠ ProfileScreen.ActivityIndicator ∧
     ∀ message, ProfileScreen.renderPosts (ui wp') ≠ ProfileScreen.ErrorText message).
Proof.
  intros Hdata Hs Hid Hposts Herror. split.
  - destruct (trending_fetchPosts_run tenv [] wt Hdata) as (out & logs & Henr & _ & Hrun);
      [done|].
    destruct Henr as [Hlen _]. destruct out; [|done].
    do 2 eexists. split; [exact Hrun|]. simpl. by split.
  - destruct (profile_fetchPosts_run penv userId [] wp Hs Hid Hposts)
      as (out & logs & Henr & _ & Hrun); [done|].
    destruct Henr as [Hlen _]. destruct out; [|done].
    eexists. split; [exact Hrun|].
    unfold ProfileScreen.renderPosts. simpl. rewrite Herror. simpl. by repeat split.
Qed.

Lemma empty_list_rendering_witness :
  (∃ wt' buttons,
     Trending.fetchPosts Sample.trending_empty Sample.trending_start = (Normal tt, wt') ∧
     Trending.render (ui wt') = Trending.Screen buttons [] ∧
     Trending.render (ui wt') ≠ Trending.ActivityIndicator) ∧
  (∃ wp',
     ProfileScreen.fetchPosts Sample.profile_empty Sample.profile_start = (Normal tt, wp') ∧
     ProfileScreen.renderPosts (ui wp') = ProfileScreen.EmptyText "No posts yet" ∧
     ProfileScreen.renderPosts (ui wp') ≠ ProfileScreen.ActivityIndicator ∧
     ∀ message, ProfileScreen.renderPosts (ui wp') ≠ ProfileScreen.ErrorText message).
Proof.
  apply (empty_list_rendering Sample.trending_empty Sample.trending_start
           Sample.profile_empty (Some "7") Sample.profile_start);
    reflexivity.
Defined.

(** C10.  In either screen the enrichment leaves [PostID], [PromptID],
    [PostText], [UpvoteCount] and [DownvoteCount] of every post as they
    were.  On the trending screen the post's own [Category] is replaced: by
    the [Category] of the fetched prompt when the fetch succeeds, and by the
    empty string when the fetch fails, whatever the post's [Category] was. *)
Theorem C10_enrichment_frame
    (tenv : Trending.Env) (data : list Post) (wt : World Trending.State)
    (penv : ProfileScreen.Env) (userId : option string) (data_posts : list Post)
    (wp : World ProfileScreen.State) :
  let sortedPosts := JS.slice 0 20 (JS.sort Trending.byUpvotes data) in
  payload (Trending.posts_response tenv) = Some data →
  settles (length sortedPosts) (Trending.completion_order tenv) = true →
  ProfileScreen.storage penv = ProfileScreen.Item userId →
  JS.falsy userId = false →
  payload (ProfileScreen.posts_response penv) = Some data_posts →
  settles (length data_posts) (ProfileScreen.completion_order penv) = true →
  (∃ wt', Trending.fetchPosts tenv wt = (Normal tt, wt') ∧
     ∀ i post, sortedPosts !! i = Some post →
       ∃ o, Trending.posts (ui wt') !! i = Some o ∧
            PostID o = PostID post ∧ PromptID o = PromptID post ∧
            PostText o = PostText post ∧ UpvoteCount o = UpvoteCount post ∧
            DownvoteCount o = DownvoteCount post ∧
            (fetch_failed (Trending.prompt_response tenv i) = true →
             Category o = Some "") ∧
            (∀ prompt, fetch_failed (Trending.prompt_response tenv i) = false →
                       payload (Trending.prompt_response tenv i) = Some prompt →
                       Category o = prompt_Category prompt)) ∧
  (∃ wp', ProfileScreen.fetchPosts penv wp = (Normal tt, wp') ∧
     ∀ j post, data_posts !! j = Some post →
       ∃ o, ProfileScreen.posts (ui wp') !! j = Some o ∧
            PostID o = PostID post ∧ PromptID o = PromptID post ∧
            PostText o = PostText post ∧ UpvoteCount o = UpvoteCount post ∧
            DownvoteCount o = DownvoteCount post).
Proof.
  intros sortedPosts Hdata Horder Hs Hid Hposts Horder'. split.
  - destruct (trending_fetchPosts_run tenv data wt Hdata Horder)
      as (out & logs & Henr & _ & Hrun).
    eexists. split; [exact Hrun|]. simpl. intros i post Hi.
    destruct (enriched_lookup _ _ _ _ _ wt Henr Hi)
      as (o & Ho & (pt & cat & Hspread) & Hfb & Hok).
    exists o. split; [done|]. rewrite Hspread at 1 2 3 4 5. simpl.
    repeat split.
    + intros Hfailed. by rewrite (Hfb Hfailed).
    + intros prompt Hnf Hp. by rewrite (Hok prompt Hnf Hp).
  - destruct (profile_fetchPosts_run penv userId data_posts wp Hs Hid Hposts Horder')
      as (out & logs & Henr & _ & Hrun).
    eexists. split; [exact Hrun|]. simpl. intros j post Hj.
    destruct (enriched_lookup _ _ _ _ _ wp Henr Hj) as (o & Ho & (pt & cat & ->) & _).
    exists (spread post pt cat). by repeat split.
Qed.

Lemma C10_enrichment_frame_witness :
  (∃ wt', Trending.fetchPosts Sample.trending Sample.trending_start = (Normal tt, wt') ∧
     ∀ i post, [Sample.first; Sample.second] !! i = Some post →
       ∃ o, Trending.posts (ui wt') !! i = Some o ∧
            PostID o = PostID post ∧ PromptID o = PromptID post ∧
            PostText o = PostText post ∧ UpvoteCount o = UpvoteCount post ∧
            DownvoteCount o = DownvoteCount post ∧
            (fetch_failed (Sample.prompts i) = true → Category o = Some "") ∧
            (∀ prompt, fetch_failed (Sample.prompts i) = false →
                       payload (Sample.prompts i) = Some prompt →
                       Category o = prompt_Category prompt)) ∧
  (∃ wp', ProfileScreen.fetchPosts Sample.profile Sample.profile_start = (Normal tt, wp') ∧
     ∀ j post, [Sample.first; Sample.second] !! j = Some post →
       ∃ o, ProfileScreen.posts (ui wp') !! j = Some o ∧
            PostID o = PostID post ∧ PromptID o = PromptID post ∧
            PostText o = PostText post ∧ UpvoteCount o = UpvoteCount post ∧
            DownvoteCount o = DownvoteCount post).
Proof.
  apply (C10_enrichment_frame Sample.trending [Sample.second; Sample.first]
           Sample.trending_start Sample.profile (Some "7")
           [Sample.first; Sample.second] Sample.profile_start);
    reflexivity.
Defined.

(** * Further properties of the two screens *)

(** ** [Number] on identifiers made of digits *)

Lemma digitValue_decimal c :
  isDecimalDigit c = true → JS.digitValue 10 c = Some (JS.code c - 48)%N.
Proof.
  unfold isDecimalDigit, JS.digitValue. intros H. rewrite H.
  apply andb_prop in H as [H1 H2].
  apply N.leb_le in H1, H2.
  destruct (N.ltb_spec (JS.code c - 48) 10); [done | lia].
Qed.

Lemma digits_decimal l :
  forallb isDecimalDigit l = true →
  ∀ acc count, ∃ v, JS.digits 10 acc count l = (v, (count + length l)%nat, []).
Proof.
  induction l as [|c l IH]; simpl; intros Hl acc count.
  - exists acc. by rewrite Nat.add_0_r.
  - apply andb_prop in Hl as [Hc Hl]. rewrite (digitValue_decimal c Hc).
    destruct (IH Hl (acc * 10 + (JS.code c - 48))%N (S count)) as [v Hv].
    exists v. rewrite Hv. do 2 f_equal. lia.
Qed.

Lemma isWhiteSpace_digit c : isDecimalDigit c = true → JS.isWhiteSpace c = false.
Proof.
  unfold isDecimalDigit, JS.isWhiteSpace. intros [H1 H2]%andb_prop.
  apply N.leb_le in H1, H2.
  destruct (N.leb_spec 9 (JS.code c)), (N.leb_spec (JS.code c) 13),
    (N.eqb_spec (JS.code c) 32), (N.eqb_spec (JS.code c) 160); simpl; try done; lia.
Qed.

Lemma trim_decimal l : forallb isDecimalDigit l = true → JS.trim l = l.
Proof.
  intros Hl. unfold JS.trim.
  assert (Hdrop : ∀ k, forallb isDecimalDigit k = true → JS.dropWhiteSpace k = k).
  { intros [|c k]; simpl; [done|]. intros [Hc _]%andb_prop.
    by rewrite (isWhiteSpace_digit c Hc). }
  rewrite (Hdrop l Hl), Hdrop, rev_involutive; [done|].
  rewrite forallb_forall in *. intros c Hc. apply Hl. by apply in_rev.
Qed.

Lemma roundToDouble_not_NaN negative n d :
  JS.isNaN (JS.roundToDouble negative n d) = false.
Proof.
  unfold JS.roundToDouble. destruct (n =? 0)%N; [done|]. cbv zeta.
  destruct (0 <=? _)%Z.
  - destruct (2 ^ 1024 <=? _)%N; done.
  - by destruct (JS.normalize _ _ _).
Qed.

Lemma toDouble_not_NaN negative m e : JS.isNaN (JS.toDouble negative m e) = false.
Proof. unfold JS.toDouble. destruct (0 <=? e)%Z; apply roundToDouble_not_NaN. Qed.

Lemma unsignedDecimal_digits l :
  l ≠ [] → forallb isDecimalDigit l = true →
  ∃ v, JS.unsignedDecimal false l = JS.toDouble false v 0.
Proof.
  intros Hne Hl. unfold JS.unsignedDecimal.
  assert (String.eqb (string_of_list_ascii l) "Infinity" = false) as ->.
  { destruct l as [|c l]; [done|]. simpl in *. apply andb_prop in Hl as [Hc _].
    destruct (Ascii.eqb_spec c "I"); [|done]. by subst c. }
  destruct (digits_decimal l Hl 0%N 0%nat) as [v ->]. simpl.
  exists v. destruct l; [done|]. done.
Qed.

(** An identifier made of decimal digits converts to the double nearest
    to the integer it spells, not to [NaN]. *)
Lemma Number_decimal_digits s :
  decimal_digits s = true → ∃ v, JS.Number s = JS.toDouble false v 0.
Proof.
  unfold decimal_digits, JS.Number.
  destruct (list_ascii_of_string s) as [|c l] eqn:Hs; [done|].
  intros Hl. rewrite (trim_decimal _ Hl).
  destruct (unsignedDecimal_digits (c :: l)) as [v Hv]; [done.. |].
  exists v. rewrite <- Hv.
  pose proof Hl as Hl'. simpl in Hl'. apply andb_prop in Hl' as [Hc Hl'].
  destruct c as [[] [] [] [] [] [] [] []]; try discriminate Hc; try reflexivity.
  destruct l as [|c' l]; [reflexivity|].
  simpl in Hl'. apply andb_prop in Hl' as [Hc' _].
  destruct c' as [[] [] [] [] [] [] [] []]; try discriminate Hc'; reflexivity.
Qed.

(** ** The navigation handlers *)

(** X1.  [handlePostPress] never throws and never touches the React state;
    it records exactly one event, and that event is a navigation, to Replies
    with the converted identifiers, exactly when both identifiers convert
    and the navigator does not throw; otherwise it is a console error
    line. *)
Theorem handlePostPress_one_event
    (broken : bool) (postId promptId : string) (w : World Trending.State) :
  ∃ e,
    Trending.handlePostPress broken postId promptId w
    = (Normal tt, mkWorld (ui w) (trace w ++ [e])) ∧
    (isConsole e = false ↔
       broken = false ∧ JS.isNaN (JS.Number postId) = false ∧
       JS.isNaN (JS.Number promptId) = false) ∧
    (isConsole e = false →
       e = Navigate "Replies" (JS.Number postId) (JS.Number promptId)) ∧
    (isConsole e = true → ∃ message, e = ConsoleError message).
Proof.
  unfold Trending.handlePostPress, try_catch, navigate.
  destruct (JS.isNaN (JS.Number postId)), (JS.isNaN (JS.Number promptId)), broken;
    simpl; eexists; (split; [reflexivity|]); simpl;
    (split; [|split; [done | try done; by eexists]]);
    split; try done; intros (? & ? & ?); done.
Qed.

(** X2.  Identifiers that are non-empty strings of decimal digits always
    navigate: neither converts to [NaN] (a very long one converts to
    [Infinity]), and [handlePostPress] dispatches one navigation to Replies
    with the two converted identifiers. *)
Theorem handlePostPress_digit_ids
    (postId promptId : string) (w : World Trending.State) :
  decimal_digits postId = true →
  decimal_digits promptId = true →
  JS.isNaN (JS.Number postId) = false ∧
  JS.isNaN (JS.Number promptId) = false ∧
  Trending.handlePostPress false postId promptId w
  = (Normal tt,
     mkWorld (ui w)
       (trace w ++ [Navigate "Replies" (JS.Number postId) (JS.Number promptId)])).
Proof.
  intros [a Ha]%Number_decimal_digits [b Hb]%Number_decimal_digits.
  assert (Hpost : JS.isNaN (JS.Number postId) = false)
    by (rewrite Ha; apply toDouble_not_NaN).
  assert (Hprompt : JS.isNaN (JS.Number promptId) = false)
    by (rewrite Hb; apply toDouble_not_NaN).
  repeat split; try done.
  unfold Trending.handlePostPress, try_catch, navigate.
  by rewrite Hpost, Hprompt.
Qed.

Lemma handlePostPress_digit_ids_witness :
  JS.isNaN (JS.Number "12") = false ∧
  JS.isNaN (JS.Number "9007199254740993") = false ∧
  Trending.handlePostPress false "12" "9007199254740993" Sample.trending_start
  = (Normal tt,
     mkWorld (ui Sample.trending_start)
       (trace Sample.trending_start
          ++ [Navigate "Replies" (JS.Number "12") (JS.Number "9007199254740993")])).
Proof.
  apply (handlePostPress_digit_ids "12" "9007199254740993" Sample.trending_start);
    reflexivity.
Defined.

(** X3.  On identifiers that both convert, the handlers of the two screens
    dispatch the same navigation. *)
Theorem handlers_agree_on_numeric_ids
    (postId promptId : string)
    (wt : World Trending.State) (wp : World ProfileScreen.State) :
  JS.isNaN (JS.Number postId) = false →
  JS.isNaN (JS.Number promptId) = false →
  ∃ e,
    Trending.handlePostPress false postId promptId wt
    = (Normal tt, mkWorld (ui wt) (trace wt ++ [e])) ∧
    ProfileScreen.navigateToReplies false postId promptId wp
    = (Normal tt, mkWorld (ui wp) (trace wp ++ [e])) ∧
    e = Navigate "Replies" (JS.Number postId) (JS.Number promptId).
Proof.
  intros Ha Hb. eexists. unfold Trending.handlePostPress, try_catch, navigate.
  rewrite Ha, Hb. simpl. repeat split.
Qed.

Lemma handlers_agree_on_numeric_ids_witness :
  ∃ e,
    Trending.handlePostPress false " 7 " "0x1F" Sample.trending_start
    = (Normal tt, mkWorld (ui Sample.trending_start) (trace Sample.trending_start ++ [e])) ∧
    ProfileScreen.navigateToReplies false " 7 " "0x1F" Sample.profile_start
    = (Normal tt, mkWorld (ui Sample.profile_start) (trace Sample.profile_start ++ [e])) ∧
    e = Navigate "Replies" (JS.Number " 7 ") (JS.Number "0x1F").
Proof.
  apply (handlers_agree_on_numeric_ids " 7 " "0x1F" Sample.trending_start
           Sample.profile_start); reflexivity.
Defined.

(** ** The category bar *)

Lemma presses_run (ids : list string) (w : World Trending.State) :
  ∃ w',
    presses ids w = (Normal tt, w') ∧
    Trending.posts (ui w') = Trending.posts (ui w) ∧
    Trending.loading (ui w') = Trending.loading (ui w) ∧
    trace w' = trace w ∧
    ((ids = [] ∧ Trending.selectedCategory (ui w') = Trending.selectedCategory (ui w)) ∨
     Trending.selectedCategory (ui w') ∈ "all" :: ids).
Proof.
  revert w. induction ids as [|id ids IH]; intros w.
  - exists w. repeat split. by left.
  - destruct w as [[posts loading selected] t].
    set (selected' := if String.eqb selected id then "all" else id).
    destruct (IH (mkWorld (Trending.mkState posts loading selected') t))
      as (w' & Hrun & Hposts & Hloading & Htrace & Hsel).
    exists w'. split; [exact Hrun|]. repeat split; try done. right.
    destruct Hsel as [[-> ->] | Hsel].
    + simpl. unfold selected'.
      destruct (String.eqb selected id); [apply list_elem_of_here|].
      apply list_elem_of_further, list_elem_of_here.
    + apply elem_of_cons in Hsel as [-> | Hsel]; [apply list_elem_of_here|].
      by do 2 apply list_elem_of_further.
Qed.

(** X4.  Whatever sequence of category buttons is pressed, the fetched
    posts, the loading flag and the trace stay as they were (no request is
    made), and the selection ends on 'all' or on one of the pressed
    identifiers. *)
Theorem presses_keep_posts (ids : list string) (w : World Trending.State) :
  ∃ w',
    presses ids w = (Normal tt, w') ∧
    Trending.posts (ui w') = Trending.posts (ui w) ∧
    Trending.loading (ui w') = Trending.loading (ui w) ∧
    trace w' = trace w ∧
    ((ids = [] ∧ Trending.selectedCategory (ui w') = Trending.selectedCategory (ui w)) ∨
     Trending.selectedCategory (ui w') ∈ "all" :: ids).
Proof.
  revert w. induction ids as [|id ids IH]; intros w.
  - exists w. repeat split. by left.
  - destruct w as [[posts loading selected] t].
    set (selected' := if String.eqb selected id then "all" else id).
    destruct (IH (mkWorld (Trending.mkState posts loading selected') t))
      as (w' & Hrun & Hposts & Hloading & Htrace & Hsel).
    exists w'. split; [exact Hrun|]. repeat split; try done. right.
    destruct Hsel as [[-> ->] | Hsel].
    + simpl. unfold selected'.
      destruct (String.eqb selected id); [apply list_elem_of_here|].
      apply list_elem_of_further, list_elem_of_here.
    + apply elem_of_cons in Hsel as [-> | Hsel]; [apply list_elem_of_here|].
      by do 2 apply list_elem_of_further.
Qed.

Lemma press_parity (categoryId : string) :
  categoryId ≠ "all" →
  ∀ n (w : World Trending.State),
    (Trending.selectedCategory (ui w) = "all" →
     Trending.selectedCategory (ui (presses (replicate n categoryId) w).2)
     = if Nat.even n then "all" else categoryId) ∧
    (Trending.selectedCategory (ui w) = categoryId →
     Trending.selectedCategory (ui (presses (replicate n categoryId) w).2)
     = if Nat.even n then categoryId else "all").
Proof.
  intros Hne. induction n as [|n IH]; intros [[posts loading selected] t].
  - done.
  - rewrite Nat.even_succ, <- Nat.negb_even.
    cbn [replicate presses ui Trending.selectedCategory].
    unfold bind, Trending.handleCategoryPress, Trending.setSelectedCategory, setState.
    cbn [ui trace Trending.posts Trending.loading Trending.selectedCategory].
    split; intros ->.
    + assert (String.eqb "all" categoryId = false) as ->.
      { apply String.eqb_neq. congruence. }
      destruct (IH (mkWorld (Trending.mkState posts loading categoryId) t)) as [_ H].
      rewrite (H eq_refl). by destruct (Nat.even n).
    + rewrite String.eqb_refl.
      destruct (IH (mkWorld (Trending.mkState posts loading "all") t)) as [H _].
      rewrite (H eq_refl). by destruct (Nat.even n).
Qed.

(** X5.  Starting from 'all', [n] presses in a row on the same category
    leave it selected when [n] is odd and return to 'all' when [n] is even. *)
Theorem presses_same_category_parity
    (categoryId : string) (n : nat) (w : World Trending.State) :
  categoryId ≠ "all" →
  Trending.selectedCategory (ui w) = "all" →
  ∃ w',
    presses (replicate n categoryId) w = (Normal tt, w') ∧
    Trending.selectedCategory (ui w') = if Nat.even n then "all" else categoryId.
Proof.
  intros Hne Hall.
  destruct (presses_run (replicate n categoryId) w) as (w' & Hrun & _).
  exists w'. split; [done|].
  destruct (press_parity categoryId Hne n w) as [H _].
  rewrite Hrun in H. by apply H.
Qed.

Lemma presses_same_category_parity_witness :
  ∃ w',
    presses (replicate 5 "music") Sample.trending_start = (Normal tt, w') ∧
    Trending.selectedCategory (ui w') = if Nat.even 5 then "all" else "music".
Proof.
  apply (presses_same_category_parity "music" 5 Sample.trending_start);
    [discriminate | reflexivity].
Defined.

(** X6.  Once loading is over the screen shows one button per category, in
    the order of [categories], and one card per stored post, in order, keyed
    by [PostID].  A button is highlighted exactly when its identifier is the
    selected one, so at most one button is highlighted, and none when the
    selection is 'all'. *)
Theorem render_buttons_and_cards (st : Trending.State) :
  Trending.loading st = false →
  ∃ buttons cards,
    Trending.render st = Trending.Screen buttons cards ∧
    map fst buttons = map fst Trending.categories ∧
    (∀ id, (id, true) ∈ buttons ↔
           id = Trending.selectedCategory st ∧ id ∈ map fst Trending.categories) ∧
    (length (filter (fun button => button.2 = true) buttons) ≤ 1)%nat ∧
    (Trending.selectedCategory st = "all" → ∀ button, button ∈ buttons → button.2 = false) ∧
    map Trending.key cards = map PostID (Trending.posts st).
Proof.
  intros Hloading. unfold Trending.render. rewrite Hloading.
  do 2 eexists. split; [reflexivity|]. split; [by rewrite map_map|].
  split; [|split; [|split]].
  - intros id. rewrite !list_elem_of_In, !in_map_iff. split.
    + intros ([id' label] & [= <- Heq] & Hin). apply String.eqb_eq in Heq.
      split; [done|]. by exists (id', label).
    + intros [-> ([id' label] & Heq & Hin)]. simpl in Heq. subst id'.
      exists (Trending.selectedCategory st, label). split; [|done]. simpl.
      by rewrite String.eqb_refl.
  - destruct st as [posts loading selected]. simpl.
    repeat match goal with
           | |- context [String.eqb selected ?c] =>
               destruct (String.eqb_spec selected c); [subst selected; vm_compute; lia|]
           end.
    vm_compute. lia.
  - intros Hall button Hin. rewrite Hall in Hin.
    vm_compute in Hin. repeat (apply elem_of_cons in Hin as [-> | Hin]; [done|]).
    by apply elem_of_nil in Hin.
  - rewrite map_map. done.
Qed.

Lemma render_buttons_and_cards_witness :
  ∃ buttons cards,
    Trending.render (Trending.mkState [Sample.first] false "tech")
    = Trending.Screen buttons cards ∧
    map fst buttons = map fst Trending.categories ∧
    (∀ id, (id, true) ∈ buttons ↔ id = "tech" ∧ id ∈ map fst Trending.categories) ∧
    (length (filter (fun button => button.2 = true) buttons) ≤ 1)%nat ∧
    ("tech" = "all" → ∀ button, button ∈ buttons → button.2 = false) ∧
    map Trending.key cards = map PostID [Sample.first].
Proof.
  apply (render_buttons_and_cards (Trending.mkState [Sample.first] false "tech")).
  reflexivity.
Defined.

(** ** The profile screen: user identifier and user data *)

Lemma getUserId_cases (env : ProfileScreen.Env) :
  ∃ logs,
    resolves (ProfileScreen.getUserId env) (stored_id env) ∧
    (∀ w : World ProfileScreen.State,
       ProfileScreen.getUserId env w
       = (Normal (stored_id env), mkWorld (ui w) (trace w ++ logs))) ∧
    forallb isConsole logs = true ∧
    (logs = [] ↔ stored_id env ≠ None).
Proof.
  unfold stored_id, resolves, ProfileScreen.getUserId, try_catch, bind, ProfileScreen.getItem.
  destruct (ProfileScreen.storage env) as [|[id|]]; simpl.
  - exists [ConsoleError "Error retrieving userId from AsyncStorage"].
    repeat split; try done. intros w. by eexists.
  - exists []. repeat split; try done.
    + intros w. exists []. rewrite app_nil_r. by destruct w.
    + intros w. rewrite app_nil_r. by destruct w.
  - exists [ConsoleLog "User not logged in"].
    repeat split; try done. intros w. by eexists.
Qed.

(** X7.  [getUserId] never throws, whatever the storage does: it resolves to
    the stored identifier, or to [null] when nothing is stored or the read is
    rejected; it leaves the React state alone, makes no request, and writes
    to the console only when it resolves to [null]. *)
Theorem getUserId_resolves_to_stored (env : ProfileScreen.Env) :
  ∃ logs,
    resolves (ProfileScreen.getUserId env) (stored_id env) ∧
    (∀ w : World ProfileScreen.State,
       ProfileScreen.getUserId env w
       = (Normal (stored_id env), mkWorld (ui w) (trace w ++ logs))) ∧
    forallb isConsole logs = true ∧
    (logs = [] ↔ stored_id env ≠ None).
Proof.
  unfold stored_id, resolves, ProfileScreen.getUserId, try_catch, bind, ProfileScreen.getItem.
  destruct (ProfileScreen.storage env) as [|[id|]]; simpl.
  - exists [ConsoleError "Error retrieving userId from AsyncStorage"].
    repeat split; try done. intros w. by eexists.
  - exists []. repeat split; try done.
    + intros w. exists []. rewrite app_nil_r. by destruct w.
    + intros w. rewrite app_nil_r. by destruct w.
  - exists [ConsoleLog "User not logged in"].
    repeat split; try done. intros w. by eexists.
Qed.

Lemma getUserId_run env (w : World ProfileScreen.State) :
  ∃ logs,
    ProfileScreen.getUserId env w
    = (Normal (stored_id env), mkWorld (ui w) (trace w ++ logs)) ∧
    forallb isConsole logs = true ∧
    (JS.falsy (stored_id env) = false → logs = []).
Proof.
  destruct (getUserId_cases env) as (logs & _ & Hrun & Hlogs & Hnil).
  exists logs. repeat split; [apply Hrun | done |].
  intros Hid. apply Hnil. by destruct (stored_id env).
Qed.

Section UserData.
Import ProfileScreen.

Lemma fetchUserData_unavailable env (w : World State) :
  JS.falsy (stored_id env) = true →
  ∃ logs,
    fetchUserData env w
    = (Normal tt,
       mkWorld (mkState (posts (ui w)) (isLoading (ui w)) (Some "User ID is not available")
                  (username (ui w)) false (controversyScore (ui w)))
         (trace w ++ logs)) ∧
    forallb isConsole logs = true ∧
    (stored_id env ≠ None → logs = []).
Proof.
  intros Hid.
  set (w1 := mkWorld (mkState (posts (ui w)) (isLoading (ui w)) (error (ui w))
                        (username (ui w)) true (controversyScore (ui w))) (trace w)).
  destruct (getUserId_cases env) as (logs & _ & Hrun & Hlogs & Hnil).
  exists logs. split; [|split; [done | apply Hnil]].
  unfold fetchUserData. unfold bind at 1. simpl. fold w1.
  unfold try_finally, try_catch.
  erewrite bind_Normal by apply Hrun. by rewrite Hid.
Qed.

Lemma fetchPosts_unavailable env (w : World State) :
  JS.falsy (stored_id env) = true →
  ∃ logs,
    fetchPosts env w
    = (Normal tt,
       mkWorld (mkState (posts (ui w)) false (Some "User ID is not available")
                  (username (ui w)) (userLoading (ui w)) (controversyScore (ui w)))
         (trace w ++ logs)) ∧
    forallb isConsole logs = true ∧
    (stored_id env ≠ None → logs = []).
Proof.
  intros Hid.
  set (w1 := mkWorld (mkState (posts (ui w)) true (error (ui w)) (username (ui w))
                        (userLoading (ui w)) (controversyScore (ui w))) (trace w)).
  destruct (getUserId_cases env) as (logs & _ & Hrun & Hlogs & Hnil).
  exists logs. split; [|split; [done | apply Hnil]].
  unfold fetchPosts. unfold bind at 1. simpl. fold w1.
  unfold try_finally, try_catch.
  erewrite bind_Normal by apply Hrun. by rewrite Hid.
Qed.

Lemma fetchUserData_loaded env userData (w : World State) :
  JS.falsy (stored_id env) = false →
  fetch_failed (user_response env) = false →
  payload (user_response env) = Some userData →
  fetchUserData env w
  = (Normal tt,
     mkWorld (mkState (posts (ui w)) (isLoading (ui w)) (error (ui w))
                (Username userData) false (controversyScore (ui w)))
       (trace w ++ [Fetch (host ++ "/api/user/" ++ JS.template (stored_id env))])).
Proof.
  intros Hid Hok Hdata.
  destruct (getUserId_run env
              (mkWorld (mkState (posts (ui w)) (isLoading (ui w)) (error (ui w))
                          (username (ui w)) true (controversyScore (ui w))) (trace w)))
    as (logs & Hrun & _ & Hnil).
  rewrite (Hnil Hid), app_nil_r in Hrun.
  unfold fetchUserData. unfold bind at 1. simpl.
  unfold try_finally, try_catch.
  erewrite bind_Normal by apply Hrun. rewrite Hid.
  destruct (user_response env) as [|[[] [|[|u]]]]; simplify_eq/=.
  unfold bind. simpl. done.
Qed.

Lemma fetchUserData_failed env (w : World State) :
  JS.falsy (stored_id env) = false →
  fetch_failed (user_response env) = true ∨ payload (user_response env) = None →
  fetchUserData env w
  = (Normal tt,
     mkWorld (mkState (posts (ui w)) (isLoading (ui w)) (Some "Failed to load user data")
                (username (ui w)) false (controversyScore (ui w)))
       (trace w ++ [Fetch (host ++ "/api/user/" ++ JS.template (stored_id env));
                    ConsoleError "Error fetching user data:"])).
Proof.
  intros Hid Hfail.
  destruct (getUserId_run env
              (mkWorld (mkState (posts (ui w)) (isLoading (ui w)) (error (ui w))
                          (username (ui w)) true (controversyScore (ui w))) (trace w)))
    as (logs & Hrun & _ & Hnil).
  rewrite (Hnil Hid), app_nil_r in Hrun.
  unfold fetchUserData. unfold bind at 1. simpl.
  unfold try_finally, try_catch.
  erewrite bind_Normal by apply Hrun. rewrite Hid.
  destruct (user_response env) as [|[[] [|[|u]]]]; simpl in *;
    unfold bind; simpl; rewrite <- ?app_assoc; try done;
    destruct Hfail; done.
Qed.

End UserData.

(** X8.  With a stored identifier and a successful response that decodes to
    user data, [fetchUserData] stores the [Username], switches the user
    loading flag off and leaves error, posts and score alone, after exactly
    one request, to /api/user/{id}. *)
Theorem fetchUserData_sets_username
    (env : ProfileScreen.Env) (userData : UserData) (w : World ProfileScreen.State) :
  JS.falsy (stored_id env) = false →
  fetch_failed (ProfileScreen.user_response env) = false →
  payload (ProfileScreen.user_response env) = Some userData →
  ∃ w',
    ProfileScreen.fetchUserData env w = (Normal tt, w') ∧
    ProfileScreen.username (ui w') = Username userData ∧
    ProfileScreen.userLoading (ui w') = false ∧
    ProfileScreen.error (ui w') = ProfileScreen.error (ui w) ∧
    ProfileScreen.posts (ui w') = ProfileScreen.posts (ui w) ∧
    ProfileScreen.isLoading (ui w') = ProfileScreen.isLoading (ui w) ∧
    ProfileScreen.controversyScore (ui w') = ProfileScreen.controversyScore (ui w) ∧
    trace w' = trace w ++ [Fetch (host ++ "/api/user/" ++ JS.template (stored_id env))].
Proof.
  intros Hid Hok Hdata. eexists.
  split; [by apply fetchUserData_loaded|]. by repeat split.
Qed.

Lemma fetchUserData_sets_username_witness :
  ∃ w',
    ProfileScreen.fetchUserData Sample.profile Sample.profile_start = (Normal tt, w') ∧
    ProfileScreen.username (ui w') = "ann" ∧
    ProfileScreen.userLoading (ui w') = false ∧
    ProfileScreen.error (ui w') = ProfileScreen.error (ui Sample.profile_start) ∧
    ProfileScreen.posts (ui w') = ProfileScreen.posts (ui Sample.profile_start) ∧
    ProfileScreen.isLoading (ui w') = ProfileScreen.isLoading (ui Sample.profile_start) ∧
    ProfileScreen.controversyScore (ui w')
    = ProfileScreen.controversyScore (ui Sample.profile_start) ∧
    trace w' = trace Sample.profile_start
               ++ [Fetch (host ++ "/api/user/" ++ JS.template (stored_id Sample.profile))].
Proof.
  apply (fetchUserData_sets_username Sample.profile
           {| UserID := "7"; Username := "ann" |} Sample.profile_start);
    reflexivity.
Defined.

(** X9.  With a stored identifier, [fetchUserData] treats a rejected fetch,
    a non-success response (even one whose body is valid user data) and an
    undecodable body alike: after its one request it logs, sets the error to
    'Failed to load user data', switches the user loading flag off and keeps
    the username it had. *)
Theorem fetchUserData_failure_sets_error
    (env : ProfileScreen.Env) (w : World ProfileScreen.State) :
  JS.falsy (stored_id env) = false →
  fetch_failed (ProfileScreen.user_response env) = true ∨
  payload (ProfileScreen.user_response env) = None →
  ∃ w',
    ProfileScreen.fetchUserData env w = (Normal tt, w') ∧
    ProfileScreen.error (ui w') = Some "Failed to load user data" ∧
    ProfileScreen.username (ui w') = ProfileScreen.username (ui w) ∧
    ProfileScreen.userLoading (ui w') = false ∧
    trace w' = trace w ++ [Fetch (host ++ "/api/user/" ++ JS.template (stored_id env));
                           ConsoleError "Error fetching user data:"].
Proof.
  intros Hid Hfail. eexists.
  split; [by apply fetchUserData_failed|]. by repeat split.
Qed.

Lemma fetchUserData_failure_sets_error_witness :
  let env :=
    {| ProfileScreen.storage := ProfileScreen.Item (Some "7");
       ProfileScreen.user_response :=
         Resolved (mkResponse false (Json (Well {| UserID := "7"; Username := "ann" |})));
       ProfileScreen.posts_response := Rejected;
       ProfileScreen.prompt_response := Sample.prompts;
       ProfileScreen.completion_order := [] |} in
  ∃ w',
    ProfileScreen.fetchUserData env Sample.profile_start = (Normal tt, w') ∧
    ProfileScreen.error (ui w') = Some "Failed to load user data" ∧
    ProfileScreen.username (ui w') = ProfileScreen.username (ui Sample.profile_start) ∧
    ProfileScreen.userLoading (ui w') = false ∧
    trace w' = trace Sample.profile_start
               ++ [Fetch (host ++ "/api/user/" ++ JS.template (stored_id env));
                   ConsoleError "Error fetching user data:"].
Proof.
  intros env. apply (fetchUserData_failure_sets_error env Sample.profile_start);
    [reflexivity | left; reflexivity].
Defined.

(** ** A prompt fetch that never settles *)

Section Unsettled.
Context {S B : Type}.
Implicit Types (tasks : list (M S B)) (results : list B) (values : list (option B)).

Lemma settles_false n order :
  settles n order = false → ∃ i, (i < n)%nat ∧ i ∉ order.
Proof.
  unfold settles. intros H.
  assert (Hex : ∃ i, In i (seq 0 n) ∧ existsb (Nat.eqb i) order = false).
  { induction (seq 0 n) as [|j l IH]; simpl in H; [done|].
    destruct (existsb (Nat.eqb j) order) eqn:Hj.
    - destruct (IH H) as (i & Hi & Hex). exists i. split; [by right | done].
    - exists j. split; [by left | done]. }
  destruct Hex as (i & Hi & Hex). exists i. apply in_seq in Hi. split; [lia|].
  intros Hin. apply list_elem_of_In in Hin.
  assert (existsb (Nat.eqb i) order = true); [|congruence].
  apply existsb_exists. exists i. split; [done | apply Nat.eqb_refl].
Qed.

Lemma collect_unresolved values i : values !! i = Some None → collect values = None.
Proof.
  revert i. induction values as [|[b|] values IH]; intros [|i] Hi; simplify_eq/=; try done.
  by rewrite (IH i Hi).
Qed.

Lemma settle_all_keeps_unsettled tasks results :
  Forall2 resolves tasks results →
  ∀ order values w i,
    values !! i = Some None →
    i ∉ order →
    ∃ values' logs,
      settle_all tasks order values w
        = (Normal values', mkWorld (ui w) (trace w ++ logs)) ∧
      forallb isConsole logs = true ∧
      values' !! i = Some None.
Proof.
  intros Htasks. induction order as [|j order IH]; intros values w i Hi Hnotin.
  - exists values, []. simpl. rewrite app_nil_r. by destruct w.
  - apply not_elem_of_cons in Hnotin as [Hne Hnotin]. simpl.
    destruct (values !! j) as [[b|]|] eqn:Hvj; [by apply IH | | by apply IH].
    destruct (tasks !! j) as [task|] eqn:Htj; [|by apply IH].
    destruct (Forall2_lookup_l _ _ _ _ _ Htasks Htj) as (r & _ & Hres).
    destruct (Hres w) as (logs1 & Hrun1 & Hlogs1).
    unfold bind at 1. rewrite Hrun1.
    destruct (IH (<[j := Some r]> values) (mkWorld (ui w) (trace w ++ logs1)) i)
      as (values' & logs & Hrun & Hlogs & Hi'); [|done|].
    { by rewrite list_lookup_insert_ne. }
    exists values', (logs1 ++ logs). simpl in Hrun. rewrite Hrun, app_assoc.
    repeat split; try done. rewrite forallb_app. by rewrite Hlogs1, Hlogs.
Qed.

(** If one of the callbacks never settles, [Promise.all] stays pending. *)
Lemma Promise_all_pending tasks results order (w : World S) :
  Forall2 resolves tasks results →
  settles (length tasks) order = false →
  ∃ logs,
    Promise_all tasks order w = (Pending, mkWorld (ui w) (trace w ++ logs)) ∧
    forallb isConsole logs = true.
Proof.
  intros Htasks (i & Hi & Hnotin)%settles_false.
  destruct (settle_all_keeps_unsettled tasks results Htasks order
              (replicate (length tasks) None) w i)
    as (values' & logs & Hrun & Hlogs & Hvi); [|done|].
  { by apply lookup_replicate. }
  exists logs. split; [|done]. unfold Promise_all, bind. rewrite Hrun.
  by rewrite (collect_unresolved _ _ Hvi).
Qed.

End Unsettled.

Lemma enrichment_pending {S} posts prompts order (w : World S) :
  settles (length posts) order = false →
  ∃ logs,
    Promise_all (withPrompts posts prompts) order w
    = (Pending, mkWorld (ui w) (trace w ++ logs)) ∧
    forallb isConsole logs = true.
Proof.
  intros Horder. destruct (withPrompts_resolve (S:=S) posts prompts) as (out & Hout & _).
  eapply Promise_all_pending; [exact Hout|].
  unfold withPrompts. by rewrite length_imap.
Qed.

Lemma bind_Pending {S A B} (m : M S A) (k : A → M S B) w w' :
  m w = (Pending, w') → bind m k w = (Pending, w').
Proof. intros H. unfold bind. by rewrite H. Qed.

Section Pending.

Lemma trending_fetchPosts_pending env data (w : World Trending.State) :
  payload (Trending.posts_response env) = Some data →
  settles (length (JS.slice 0 20 (JS.sort Trending.byUpvotes data)))
    (Trending.completion_order env) = false →
  ∃ logs,
    Trending.fetchPosts env w
    = (Pending,
       mkWorld (ui w)
         (trace w ++ Fetch (host ++ "/api/posts")
            :: map (fun post => Fetch (prompt_url post))
                 (JS.slice 0 20 (JS.sort Trending.byUpvotes data)) ++ logs)) ∧
    forallb isConsole logs = true.
Proof.
  intros Hdata Horder.
  set (sortedPosts := JS.slice 0 20 (JS.sort Trending.byUpvotes data)) in *.
  set (w1 := mkWorld (ui w) ((trace w ++ [Fetch (host ++ "/api/posts")])
               ++ map (fun post => Fetch (prompt_url post)) sortedPosts)).
  destruct (enrichment_pending sortedPosts (Trending.prompt_response env)
              (Trending.completion_order env) w1 Horder) as (logs & Hrun & Hlogs).
  exists logs. split; [|done].
  unfold Trending.fetchPosts, try_catch. rewrite (fetch_payload _ _ data) by done.
  fold sortedPosts. erewrite bind_Normal by apply trending_begin_run.
  fold w1. erewrite bind_Pending by exact Hrun. simpl. by rewrite <- !app_assoc.
Qed.

Lemma profile_fetchPosts_pending env data_posts (w : World ProfileScreen.State) :
  JS.falsy (stored_id env) = false →
  payload (ProfileScreen.posts_response env) = Some data_posts →
  settles (length data_posts) (ProfileScreen.completion_order env) = false →
  ∃ logs,
    ProfileScreen.fetchPosts env w
    = (Pending,
       mkWorld (ProfileScreen.mkState (ProfileScreen.posts (ui w)) true
                  (ProfileScreen.error (ui w)) (ProfileScreen.username (ui w))
                  (ProfileScreen.userLoading (ui w)) (ProfileScreen.controversyScore (ui w)))
         (trace w ++ Fetch (host ++ "/api/user/" ++ JS.template (stored_id env) ++ "/posts")
            :: flat_map begin_events data_posts ++ logs)) ∧
    forallb isConsole logs = true.
Proof.
  intros Hid Hdata Horder.
  set (url := (host ++ "/api/user/" ++ JS.template (stored_id env) ++ "/posts")%string).
  set (st1 := ProfileScreen.mkState (ProfileScreen.posts (ui w)) true
                (ProfileScreen.error (ui w)) (ProfileScreen.username (ui w))
                (ProfileScreen.userLoading (ui w)) (ProfileScreen.controversyScore (ui w))).
  set (w1 := mkWorld st1 ((trace w ++ [Fetch url]) ++ flat_map begin_events data_posts)).
  destruct (enrichment_pending data_posts (ProfileScreen.prompt_response env)
              (ProfileScreen.completion_order env) w1 Horder) as (logs & Hrun & Hlogs).
  exists logs. split; [|done].
  destruct (getUserId_run env (mkWorld st1 (trace w))) as (logs0 & Hid_run & _ & Hnil).
  rewrite (Hnil Hid), app_nil_r in Hid_run.
  unfold ProfileScreen.fetchPosts. unfold bind at 1. simpl. fold st1.
  unfold try_finally, try_catch.
  erewrite bind_Normal by apply Hid_run. rewrite Hid.
  rewrite (fetch_payload _ _ data_posts) by done.
  erewrite bind_Normal by apply profile_begin_run.
  fold url. simpl ui. simpl trace. fold w1.
  erewrite bind_Pending by exact Hrun. simpl. by rewrite <- !app_assoc.
Qed.

End Pending.

(** ** How the fetches end *)

Lemma stored_id_item env :
  JS.falsy (stored_id env) = false →
  ProfileScreen.storage env = ProfileScreen.Item (stored_id env).
Proof. unfold stored_id. by destruct (ProfileScreen.storage env). Qed.

(** X10.  Neither screen looks at the HTTP status of the list response: a
    non-success response whose body decodes to a list of posts is processed
    like a success.  Every post is stored at its index with its own five
    fields and the [PromptText] and [Category] of its prompt fetch, loading
    is switched off and, on the profile screen, no error is set. *)
Theorem non_success_list_response_is_processed
    (tenv : Trending.Env) (data : list Post) (wt : World Trending.State)
    (penv : ProfileScreen.Env) (data_posts : list Post) (wp : World ProfileScreen.State) :
  let sortedPosts := JS.slice 0 20 (JS.sort Trending.byUpvotes data) in
  Trending.posts_response tenv = Resolved (mkResponse false (Json (Well data))) →
  settles (length sortedPosts) (Trending.completion_order tenv) = true →
  JS.falsy (stored_id penv) = false →
  ProfileScreen.posts_response penv = Resolved (mkResponse false (Json (Well data_posts))) →
  settles (length data_posts) (ProfileScreen.completion_order penv) = true →
  (∃ wt', Trending.fetchPosts tenv wt = (Normal tt, wt') ∧
          length (Trending.posts (ui wt')) = length sortedPosts ∧
          (∀ i post, sortedPosts !! i = Some post →
             ∃ o, Trending.posts (ui wt') !! i = Some o ∧
                  is_enrichment (Trending.prompt_response tenv i) post o) ∧
          Trending.loading (ui wt') = false) ∧
  (∃ wp', ProfileScreen.fetchPosts penv wp = (Normal tt, wp') ∧
          length (ProfileScreen.posts (ui wp')) = length data_posts ∧
          (∀ i post, data_posts !! i = Some post →
             ∃ o, ProfileScreen.posts (ui wp') !! i = Some o ∧
                  is_enrichment (ProfileScreen.prompt_response penv i) post o) ∧
          ProfileScreen.isLoading (ui wp') = false ∧
          ProfileScreen.error (ui wp') = ProfileScreen.error (ui wp)).
Proof.
  intros sortedPosts Hresp Horder Hid Hresp' Horder'. split.
  - assert (Hdata : payload (Trending.posts_response tenv) = Some data)
      by (by rewrite Hresp).
    destruct (trending_fetchPosts_run tenv data wt Hdata Horder)
      as (out & logs & Henr & _ & Hrun).
    eexists. split; [exact Hrun|]. simpl. split; [apply Henr|]. split; [|done].
    intros i post Hi. by apply (enriched_is_enrichment _ _ _ _ _ wt Henr).
  - pose proof (stored_id_item penv Hid) as Hs.
    assert (Hdata : payload (ProfileScreen.posts_response penv) = Some data_posts)
      by (by rewrite Hresp').
    destruct (profile_fetchPosts_run penv _ data_posts wp Hs Hid Hdata Horder')
      as (out & logs & Henr & _ & Hrun).
    eexists. split; [exact Hrun|]. simpl. split; [apply Henr|]. split; [|done].
    intros i post Hi. by apply (enriched_is_enrichment _ _ _ _ _ wp Henr).
Qed.

Lemma non_success_list_response_is_processed_witness :
  let failing := Resolved (mkResponse false (Json (Well [Sample.first; Sample.second]))) in
  let tenv := Trending.mkEnv failing Sample.prompts [0; 1]%nat in
  let penv := ProfileScreen.mkEnv (ProfileScreen.Item (Some "7")) Rejected failing
                Sample.prompts [0; 1]%nat in
  (∃ wt', Trending.fetchPosts tenv Sample.trending_start = (Normal tt, wt') ∧
          length (Trending.posts (ui wt')) = length [Sample.first; Sample.second] ∧
          (∀ i post, [Sample.first; Sample.second] !! i = Some post →
             ∃ o, Trending.posts (ui wt') !! i = Some o ∧
                  is_enrichment (Sample.prompts i) post o) ∧
          Trending.loading (ui wt') = false) ∧
  (∃ wp', ProfileScreen.fetchPosts penv Sample.profile_start = (Normal tt, wp') ∧
          length (ProfileScreen.posts (ui wp')) = length [Sample.first; Sample.second] ∧
          (∀ i post, [Sample.first; Sample.second] !! i = Some post →
             ∃ o, ProfileScreen.posts (ui wp') !! i = Some o ∧
                  is_enrichment (Sample.prompts i) post o) ∧
          ProfileScreen.isLoading (ui wp') = false ∧
          ProfileScreen.error (ui wp') = ProfileScreen.error (ui Sample.profile_start)).
Proof.
  intros failing tenv penv.
  apply (non_success_list_response_is_processed tenv [Sample.first; Sample.second]
           Sample.trending_start penv [Sample.first; Sample.second] Sample.profile_start);
    reflexivity.
Defined.

(** X11.  An empty string stored as the user identifier counts as no
    identifier: both fetches set the error 'User ID is not available' and
    switch their loading flag off, and the trace is left exactly as it was
    (no request, and no console line either, since [getUserId] did return
    the string). *)
Theorem empty_user_id_is_unavailable
    (env : ProfileScreen.Env) (w : World ProfileScreen.State) :
  ProfileScreen.storage env = ProfileScreen.Item (Some "") →
  (∃ w', ProfileScreen.fetchUserData env w = (Normal tt, w') ∧
         ProfileScreen.error (ui w') = Some "User ID is not available" ∧
         ProfileScreen.userLoading (ui w') = false ∧
         ProfileScreen.username (ui w') = ProfileScreen.username (ui w) ∧
         trace w' = trace w) ∧
  (∃ w', ProfileScreen.fetchPosts env w = (Normal tt, w') ∧
         ProfileScreen.error (ui w') = Some "User ID is not available" ∧
         ProfileScreen.isLoading (ui w') = false ∧
         ProfileScreen.posts (ui w') = ProfileScreen.posts (ui w) ∧
         ProfileScreen.controversyScore (ui w') = ProfileScreen.controversyScore (ui w) ∧
         trace w' = trace w).
Proof.
  intros Hs.
  assert (Hid : stored_id env = Some "") by (unfold stored_id; by rewrite Hs).
  split.
  - destruct (fetchUserData_unavailable env w) as (logs & Hrun & _ & Hnil).
    { by rewrite Hid. }
    rewrite Hnil, app_nil_r in Hrun by (by rewrite Hid).
    eexists. split; [exact Hrun|]. by repeat split.
  - destruct (fetchPosts_unavailable env w) as (logs & Hrun & _ & Hnil).
    { by rewrite Hid. }
    rewrite Hnil, app_nil_r in Hrun by (by rewrite Hid).
    eexists. split; [exact Hrun|]. by repeat split.
Qed.

Lemma empty_user_id_is_unavailable_witness :
  let env :=
    {| ProfileScreen.storage := ProfileScreen.Item (Some "");
       ProfileScreen.user_response := Sample.delivered {| UserID := ""; Username := "ann" |};
       ProfileScreen.posts_response := Sample.delivered [Sample.first];
       ProfileScreen.prompt_response := Sample.prompts;
       ProfileScreen.completion_order := [0%nat] |} in
  (∃ w', ProfileScreen.fetchUserData env Sample.profile_start = (Normal tt, w') ∧
         ProfileScreen.error (ui w') = Some "User ID is not available" ∧
         ProfileScreen.userLoading (ui w') = false ∧
         ProfileScreen.username (ui w') = ProfileScreen.username (ui Sample.profile_start) ∧
         trace w' = trace Sample.profile_start) ∧
  (∃ w', ProfileScreen.fetchPosts env Sample.profile_start = (Normal tt, w') ∧
         ProfileScreen.error (ui w') = Some "User ID is not available" ∧
         ProfileScreen.isLoading (ui w') = false ∧
         ProfileScreen.posts (ui w') = ProfileScreen.posts (ui Sample.profile_start) ∧
         ProfileScreen.controversyScore (ui w')
         = ProfileScreen.controversyScore (ui Sample.profile_start) ∧
         trace w' = trace Sample.profile_start).
Proof.
  intros env. apply (empty_user_id_is_unavailable env Sample.profile_start). reflexivity.
Defined.

(** X12.  If the list is fetched but one of the prompt fetches never
    settles, [fetchPosts] never completes on either screen: nothing is
    stored, no error is set, and the loading indicator stays.  On the
    trending screen the React state is untouched; on the profile screen only
    the loading flag has been raised. *)
Theorem unsettled_prompt_keeps_loading
    (tenv : Trending.Env) (data : list Post) (wt : World Trending.State)
    (penv : ProfileScreen.Env) (data_posts : list Post) (wp : World ProfileScreen.State) :
  payload (Trending.posts_response tenv) = Some data →
  settles (length (JS.slice 0 20 (JS.sort Trending.byUpvotes data)))
    (Trending.completion_order tenv) = false →
  Trending.loading (ui wt) = true →
  JS.falsy (stored_id penv) = false →
  payload (ProfileScreen.posts_response penv) = Some data_posts →
  settles (length data_posts) (ProfileScreen.completion_order penv) = false →
  (∃ wt', Trending.fetchPosts tenv wt = (Pending, wt') ∧
          ui wt' = ui wt ∧
          Trending.render (ui wt') = Trending.ActivityIndicator) ∧
  (∃ wp', ProfileScreen.fetchPosts penv wp = (Pending, wp') ∧
          ProfileScreen.posts (ui wp') = ProfileScreen.posts (ui wp) ∧
          ProfileScreen.controversyScore (ui wp') = ProfileScreen.controversyScore (ui wp) ∧
          ProfileScreen.error (ui wp') = ProfileScreen.error (ui wp) ∧
          ProfileScreen.isLoading (ui wp') = true ∧
          ProfileScreen.renderPosts (ui wp') = ProfileScreen.ActivityIndicator).
Proof.
  intros Hdata Horder Hloading Hid Hposts Horder'. split.
  - destruct (trending_fetchPosts_pending tenv data wt Hdata Horder) as (logs & Hrun & _).
    eexists. split; [exact Hrun|]. split; [done|].
    unfold Trending.render. simpl. by rewrite Hloading.
  - destruct (profile_fetchPosts_pending penv data_posts wp Hid Hposts Horder')
      as (logs & Hrun & _).
    eexists. split; [exact Hrun|]. by repeat split.
Qed.

Lemma unsettled_prompt_keeps_loading_witness :
  let tenv := Trending.mkEnv (Sample.delivered [Sample.second; Sample.first])
                Sample.prompts [0%nat] in
  let penv := ProfileScreen.mkEnv (ProfileScreen.Item (Some "7")) Rejected
                (Sample.delivered [Sample.first; Sample.second]) Sample.prompts [1%nat] in
  (∃ wt', Trending.fetchPosts tenv Sample.trending_start = (Pending, wt') ∧
          ui wt' = ui Sample.trending_start ∧
          Trending.render (ui wt') = Trending.ActivityIndicator) ∧
  (∃ wp', ProfileScreen.fetchPosts penv Sample.profile_start = (Pending, wp') ∧
          ProfileScreen.posts (ui wp') = ProfileScreen.posts (ui Sample.profile_start) ∧
          ProfileScreen.controversyScore (ui wp')
          = ProfileScreen.controversyScore (ui Sample.profile_start) ∧
          ProfileScreen.error (ui wp') = ProfileScreen.error (ui Sample.profile_start) ∧
          ProfileScreen.isLoading (ui wp') = true ∧
          ProfileScreen.renderPosts (ui wp') = ProfileScreen.ActivityIndicator).
Proof.
  intros tenv penv.
  apply (unsettled_prompt_keeps_loading tenv [Sample.second; Sample.first]
           Sample.trending_start penv [Sample.first; Sample.second] Sample.profile_start);
    reflexivity.
Defined.

Lemma fetches_end
    (tenv : Trending.Env) (wt : World Trending.State)
    (penv : ProfileScreen.Env) (wp : World ProfileScreen.State) :
  ((∃ wt', Trending.fetchPosts tenv wt = (Normal tt, wt') ∧
           Trending.loading (ui wt') = false) ∨
   (∃ wt', Trending.fetchPosts tenv wt = (Pending, wt') ∧ ui wt' = ui wt)) ∧
  ((∃ wp', ProfileScreen.fetchPosts penv wp = (Normal tt, wp') ∧
           ProfileScreen.isLoading (ui wp') = false) ∨
   (∃ wp', ProfileScreen.fetchPosts penv wp = (Pending, wp') ∧
           ProfileScreen.isLoading (ui wp') = true)) ∧
  (∃ wp', ProfileScreen.fetchUserData penv wp = (Normal tt, wp') ∧
          ProfileScreen.userLoading (ui wp') = false).
Proof.
  split; [|split].
  - destruct (payload (Trending.posts_response tenv)) as [data|] eqn:Hdata.
    + destruct (settles (length (JS.slice 0 20 (JS.sort Trending.byUpvotes data)))
                  (Trending.completion_order tenv)) eqn:Horder.
      * destruct (trending_fetchPosts_run tenv data wt Hdata Horder)
          as (out & logs & _ & _ & Hrun).
        left. eexists. split; [exact Hrun | done].
      * destruct (trending_fetchPosts_pending tenv data wt Hdata Horder) as (logs & Hrun & _).
        right. eexists. split; [exact Hrun | done].
    + left. eexists. split; [by apply trending_fetchPosts_failed | done].
  - destruct (JS.falsy (stored_id penv)) eqn:Hid.
    { destruct (fetchPosts_unavailable penv wp Hid) as (logs & Hrun & _).
      left. eexists. split; [exact Hrun | done]. }
    pose proof (stored_id_item penv Hid) as Hs.
    destruct (payload (ProfileScreen.posts_response penv)) as [data_posts|] eqn:Hdata.
    + destruct (settles (length data_posts) (ProfileScreen.completion_order penv)) eqn:Horder.
      * destruct (profile_fetchPosts_run penv _ data_posts wp Hs Hid Hdata Horder)
          as (out & logs & _ & _ & Hrun).
        left. eexists. split; [exact Hrun | done].
      * destruct (profile_fetchPosts_pending penv data_posts wp Hid Hdata Horder)
          as (logs & Hrun & _).
        right. eexists. split; [exact Hrun | done].
    + left. eexists. split; [by eapply profile_fetchPosts_failed | done].
  - destruct (JS.falsy (stored_id penv)) eqn:Hid.
    { destruct (fetchUserData_unavailable penv wp Hid) as (logs & Hrun & _).
      eexists. split; [exact Hrun | done]. }
    destruct (fetch_failed (ProfileScreen.user_response penv)) eqn:Hfailed.
    { eexists. split; [apply fetchUserData_failed; auto | done]. }
    destruct (payload (ProfileScreen.user_response penv)) as [userData|] eqn:Hdata.
    + eexists. split; [by eapply fetchUserData_loaded | done].
    + eexists. split; [apply fetchUserData_failed; auto | done].
Qed.

(** X13.  No exception escapes the fetches: none of the two [fetchPosts]
    and [fetchUserData] ever ends with a throw, whatever the storage and the
    network deliver, and whenever one of them completes its loading flag is
    off. *)
Theorem fetches_never_throw
    (tenv : Trending.Env) (wt : World Trending.State)
    (penv : ProfileScreen.Env) (wp : World ProfileScreen.State) (e : Exn) :
  (Trending.fetchPosts tenv wt).1 ≠ Throw e ∧
  (ProfileScreen.fetchPosts penv wp).1 ≠ Throw e ∧
  (ProfileScreen.fetchUserData penv wp).1 ≠ Throw e ∧
  ((Trending.fetchPosts tenv wt).1 = Normal tt →
   Trending.loading (ui (Trending.fetchPosts tenv wt).2) = false) ∧
  ((ProfileScreen.fetchPosts penv wp).1 = Normal tt →
   ProfileScreen.isLoading (ui (ProfileScreen.fetchPosts penv wp).2) = false) ∧
  ((ProfileScreen.fetchUserData penv wp).1 = Normal tt →
   ProfileScreen.userLoading (ui (ProfileScreen.fetchUserData penv wp).2) = false).
Proof.
  destruct (fetches_end tenv wt penv wp) as (Ht & Hp & (wu & Hu & Huser)).
  rewrite Hu. simpl.
  destruct Ht as [(wt' & -> & Hloading) | (wt' & -> & _)],
           Hp as [(wp' & -> & Hloading') | (wp' & -> & _)]; simpl;
    repeat split; done.
Qed.

(** X14.  Neither fetch of the profile screen ever clears the error: if an
    error is displayed before [fetchPosts] or [fetchUserData] runs, an
    error is still set afterwards, however the fetch ends. *)
Theorem error_is_never_cleared
    (env : ProfileScreen.Env) (w : World ProfileScreen.State) :
  JS.falsy (ProfileScreen.error (ui w)) = false →
  JS.falsy (ProfileScreen.error (ui (ProfileScreen.fetchPosts env w).2)) = false ∧
  JS.falsy (ProfileScreen.error (ui (ProfileScreen.fetchUserData env w).2)) = false.
Proof.
  intros Herror. split.
  - destruct (JS.falsy (stored_id env)) eqn:Hid.
    { destruct (fetchPosts_unavailable env w Hid) as (logs & -> & _). done. }
    pose proof (stored_id_item env Hid) as Hs.
    destruct (payload (ProfileScreen.posts_response env)) as [data_posts|] eqn:Hdata.
    + destruct (settles (length data_posts) (ProfileScreen.completion_order env)) eqn:Horder.
      * destruct (profile_fetchPosts_run env _ data_posts w Hs Hid Hdata Horder)
          as (out & logs & _ & _ & ->). done.
      * destruct (profile_fetchPosts_pending env data_posts w Hid Hdata Horder)
          as (logs & -> & _). done.
    + by erewrite profile_fetchPosts_failed.
  - destruct (JS.falsy (stored_id env)) eqn:Hid.
    { destruct (fetchUserData_unavailable env w Hid) as (logs & -> & _). done. }
    destruct (fetch_failed (ProfileScreen.user_response env)) eqn:Hfailed.
    { rewrite fetchUserData_failed; auto. }
    destruct (payload (ProfileScreen.user_response env)) as [userData|] eqn:Hdata.
    + by erewrite fetchUserData_loaded.
    + rewrite fetchUserData_failed; auto.
Qed.

Lemma error_is_never_cleared_witness :
  let w := mkWorld (ProfileScreen.mkState [] true (Some "Failed to load user data")
                      "" false (JS.ofZ 0)) [] in
  JS.falsy (ProfileScreen.error (ui (ProfileScreen.fetchPosts Sample.profile w).2)) = false ∧
  JS.falsy (ProfileScreen.error (ui (ProfileScreen.fetchUserData Sample.profile w).2)) = false.
Proof.
  intros w. apply (error_is_never_cleared Sample.profile w). reflexivity.
Defined.

(** ** What is stored and what is shown *)

Lemma enriched_map {S T} prompts posts out (w : World S) (f : Post → T) :
  enriched S prompts posts out →
  (∀ post promptText category, f (spread post promptText category) = f post) →
  map f out = map f posts.
Proof.
  intros Henr Hf. apply list_eq. intros i.
  change (map f) with (fmap (M:=list) f). rewrite !list_lookup_fmap.
  destruct (posts !! i) as [post|] eqn:Hi.
  - destruct (enriched_lookup _ _ _ _ _ w Henr Hi) as (o & -> & (pt & cat & ->) & _).
    simpl. by rewrite Hf.
  - destruct Henr as [Hlen _]. apply lookup_ge_None in Hi.
    rewrite (proj2 (lookup_ge_None _ i)) by lia. done.
Qed.

Lemma requests_begin_events posts :
  requests (flat_map begin_events posts) = map (fun post => Fetch (prompt_url post)) posts.
Proof.
  unfold requests. induction posts as [|post posts IH]; simpl; [done|].
  rewrite filter_cons_False by (simpl; congruence).
  rewrite filter_cons_True by reflexivity. by rewrite IH.
Qed.

Lemma sort_descending_id l :
  StronglySorted descending l → JS.sort Trending.byUpvotes l = l.
Proof.
  induction 1 as [|x l Hl IH Hx]; simpl; [done|]. rewrite IH.
  destruct l as [|y l]; simpl; [done|].
  apply Forall_cons in Hx as [Hxy _]. unfold descending in Hxy.
  unfold Trending.byUpvotes.
  destruct (Z.ltb_spec (UpvoteCount x - UpvoteCount y) 0); [lia | done].
Qed.

(** X15.  With at most 20 posts the trending screen drops none: it stores
    the enrichment of the whole fetched list in descending order of upvotes
    (so the stored identifiers are a permutation of the fetched ones), after
    the list request and one prompt request per post. *)
Theorem trending_keeps_short_lists
    (env : Trending.Env) (data : list Post) (w : World Trending.State) :
  payload (Trending.posts_response env) = Some data →
  (length data ≤ 20)%nat →
  settles (length data) (Trending.completion_order env) = true →
  ∃ w',
    Trending.fetchPosts env w = (Normal tt, w') ∧
    length (Trending.posts (ui w')) = length data ∧
    map PostID (Trending.posts (ui w')) ≡ₚ map PostID data ∧
    StronglySorted descending (Trending.posts (ui w')) ∧
    length (requests (trace w')) = (length (requests (trace w)) + 1 + length data)%nat.
Proof.
  intros Hdata Hlen Horder.
  set (sorted := JS.sort Trending.byUpvotes data).
  assert (Hslice : JS.slice 0 20 sorted = sorted).
  { unfold JS.slice. rewrite drop_0. apply take_ge. unfold sorted.
    rewrite sort_length. lia. }
  destruct (trending_fetchPosts_run env data w Hdata) as (out & logs & Henr & Hlogs & Hrun).
  { fold sorted. rewrite Hslice. unfold sorted. by rewrite sort_length. }
  fold sorted in Henr, Hrun. rewrite Hslice in Henr, Hrun.
  eexists. split; [exact Hrun|]. simpl. split; [|split; [|split]].
  - destruct Henr as [-> _]. apply sort_length.
  - rewrite (enriched_map _ _ _ w PostID Henr) by done.
    apply Permutation_map, sort_Permutation.
  - assert (Hup : map UpvoteCount out = map UpvoteCount sorted)
      by (by apply (enriched_map _ _ _ w UpvoteCount Henr)).
    pose proof (sort_descending data) as Hsorted. fold sorted in Hsorted.
    clear -Hup Hsorted. revert out Hup.
    induction Hsorted as [|x l Hl IH Hx]; intros [|o out] Hup; simplify_eq/=;
      constructor; [by apply IH|].
    apply Forall_forall. intros o' Ho'.
    assert (Hin : In (UpvoteCount o') (map UpvoteCount l)).
    { rewrite <- H0. apply in_map. by apply list_elem_of_In. }
    apply in_map_iff in Hin as (y & Hy & Hin).
    rewrite Forall_forall in Hx. apply list_elem_of_In in Hin.
    specialize (Hx y Hin). unfold descending in *. lia.
  - unfold requests. rewrite filter_app, length_app.
    rewrite filter_cons_True by reflexivity. rewrite filter_app.
    fold (requests logs). rewrite (requests_console logs Hlogs), app_nil_r.
    fold (requests (map (fun post => Fetch (prompt_url post)) sorted)).
    rewrite requests_fetches. simpl. rewrite length_map. unfold sorted.
    rewrite sort_length. lia.
Qed.

Lemma trending_keeps_short_lists_witness :
  ∃ w',
    Trending.fetchPosts Sample.trending Sample.trending_start = (Normal tt, w') ∧
    length (Trending.posts (ui w')) = length [Sample.second; Sample.first] ∧
    map PostID (Trending.posts (ui w')) ≡ₚ map PostID [Sample.second; Sample.first] ∧
    StronglySorted descending (Trending.posts (ui w')) ∧
    length (requests (trace w'))
    = (length (requests (trace Sample.trending_start)) + 1
       + length [Sample.second; Sample.first])%nat.
Proof.
  apply (trending_keeps_short_lists Sample.trending [Sample.second; Sample.first]
           Sample.trending_start);
    [reflexivity | simpl; lia | reflexivity].
Defined.

(** X16.  A list that the service already returns in descending order of
    upvotes is shown in the service's order: the stored identifiers are the
    first 20 fetched identifiers, ties included (the sort is stable). *)
Theorem trending_keeps_sorted_order
    (env : Trending.Env) (data : list Post) (w : World Trending.State) :
  payload (Trending.posts_response env) = Some data →
  StronglySorted descending data →
  settles (length (take 20 data)) (Trending.completion_order env) = true →
  ∃ w',
    Trending.fetchPosts env w = (Normal tt, w') ∧
    map PostID (Trending.posts (ui w')) = map PostID (take 20 data).
Proof.
  intros Hdata Hsorted Horder.
  assert (Hslice : JS.slice 0 20 (JS.sort Trending.byUpvotes data) = take 20 data).
  { unfold JS.slice. by rewrite drop_0, sort_descending_id. }
  destruct (trending_fetchPosts_run env data w Hdata) as (out & logs & Henr & _ & Hrun).
  { by rewrite Hslice. }
  rewrite Hslice in Henr. eexists. split; [exact Hrun|]. simpl.
  by apply (enriched_map _ _ _ w PostID Henr).
Qed.

Lemma trending_keeps_sorted_order_witness :
  let tie := spread Sample.second None None in
  let env := Trending.mkEnv (Sample.delivered [Sample.first; Sample.second; tie])
               Sample.prompts [2; 0; 1]%nat in
  ∃ w',
    Trending.fetchPosts env Sample.trending_start = (Normal tt, w') ∧
    map PostID (Trending.posts (ui w')) = map PostID (take 20 [Sample.first; Sample.second; tie]).
Proof.
  intros tie env.
  apply (trending_keeps_sorted_order env [Sample.first; Sample.second; tie]
           Sample.trending_start);
    [reflexivity | repeat constructor; unfold descending; simpl; lia | reflexivity].
Defined.

(** X17.  The profile screen keeps the service's order and drops nothing:
    the stored identifiers are the fetched ones, in order.  It issues the
    list request followed by one prompt request per post, in list order,
    posts that share a prompt included (nothing is deduplicated). *)
Theorem profile_requests_one_prompt_per_post
    (env : ProfileScreen.Env) (data_posts : list Post) (w : World ProfileScreen.State) :
  JS.falsy (stored_id env) = false →
  payload (ProfileScreen.posts_response env) = Some data_posts →
  settles (length data_posts) (ProfileScreen.completion_order env) = true →
  ∃ w',
    ProfileScreen.fetchPosts env w = (Normal tt, w') ∧
    map PostID (ProfileScreen.posts (ui w')) = map PostID data_posts ∧
    requests (trace w')
    = requests (trace w)
      ++ Fetch (host ++ "/api/user/" ++ JS.template (stored_id env) ++ "/posts")
      :: map (fun post => Fetch (host ++ "/api/prompt/" ++ PromptID post)) data_posts.
Proof.
  intros Hid Hdata Horder. pose proof (stored_id_item env Hid) as Hs.
  destruct (profile_fetchPosts_run env _ data_posts w Hs Hid Hdata Horder)
    as (out & logs & Henr & Hlogs & Hrun).
  eexists. split; [exact Hrun|]. simpl. split.
  - by apply (enriched_map _ _ _ w PostID Henr).
  - unfold requests. rewrite filter_app. f_equal.
    rewrite filter_cons_True by reflexivity. f_equal.
    rewrite filter_app. fold (requests logs). rewrite (requests_console logs Hlogs).
    rewrite app_nil_r. apply requests_begin_events.
Qed.

Lemma profile_requests_one_prompt_per_post_witness :
  let env := ProfileScreen.mkEnv (ProfileScreen.Item (Some "7")) Rejected
               (Sample.delivered [Sample.first; Sample.first; Sample.second])
               Sample.prompts [0; 2; 1]%nat in
  ∃ w',
    ProfileScreen.fetchPosts env Sample.profile_start = (Normal tt, w') ∧
    map PostID (ProfileScreen.posts (ui w'))
    = map PostID [Sample.first; Sample.first; Sample.second] ∧
    requests (trace w')
    = requests (trace Sample.profile_start)
      ++ Fetch (host ++ "/api/user/" ++ JS.template (stored_id env) ++ "/posts")
      :: map (fun post => Fetch (host ++ "/api/prompt/" ++ PromptID post))
           [Sample.first; Sample.first; Sample.second].
Proof.
  intros env.
  apply (profile_requests_one_prompt_per_post env
           [Sample.first; Sample.first; Sample.second] Sample.profile_start);
    reflexivity.
Defined.



(** ** The two fetches of the profile screen together *)

Lemma enriched_unique {S} prompts posts out out' (w : World S) :
  enriched S prompts posts out → enriched S prompts posts out' → out = out'.
Proof.
  intros Henr Henr'. apply list_eq. intros i.
  destruct (posts !! i) as [post|] eqn:Hi.
  - destruct Henr as [_ H], Henr' as [_ H'].
    destruct (H i post Hi) as (o & -> & Ho), (H' i post Hi) as (o' & -> & Ho').
    specialize (Ho w). specialize (Ho' w). congruence.
  - destruct Henr as [Hlen _], Henr' as [Hlen' _]. apply lookup_ge_None in Hi.
    rewrite !(proj2 (lookup_ge_None _ i)) by lia. done.
Qed.

(** What [fetchUserData] does to the React state depends on the inputs
    only: it may set the error, may set the username, and switches the user
    loading flag off. *)
Lemma fetchUserData_effect (env : ProfileScreen.Env) :
  ∃ (setsError setsUsername : option string),
    (∀ message, setsError = Some message → JS.falsy setsError = false) ∧
    ∀ w : World ProfileScreen.State,
      ui (ProfileScreen.fetchUserData env w).2
      = ProfileScreen.mkState (ProfileScreen.posts (ui w)) (ProfileScreen.isLoading (ui w))
          (if setsError is Some _ then setsError else ProfileScreen.error (ui w))
          (default (ProfileScreen.username (ui w)) setsUsername)
          false (ProfileScreen.controversyScore (ui w)).
Proof.
  destruct (JS.falsy (stored_id env)) eqn:Hid.
  { exists (Some "User ID is not available"), None. split; [by intros ? [= <-]|].
    intros w. destruct (fetchUserData_unavailable env w Hid) as (logs & -> & _). done. }
  destruct (fetch_failed (ProfileScreen.user_response env)) eqn:Hfailed.
  { exists (Some "Failed to load user data"), None. split; [by intros ? [= <-]|].
    intros w. rewrite fetchUserData_failed; auto. }
  destruct (payload (ProfileScreen.user_response env)) as [userData|] eqn:Hdata.
  - exists None, (Some (Username userData)). split; [done|].
    intros w. by erewrite fetchUserData_loaded.
  - exists (Some "Failed to load user data"), None. split; [by intros ? [= <-]|].
    intros w. rewrite fetchUserData_failed; auto.
Qed.

(** Likewise for [fetchPosts]: it may set the error, may store posts and
    score, and leaves the loading flag at a value fixed by the inputs. *)
Lemma fetchPosts_effect (env : ProfileScreen.Env) :
  ∃ (loads : bool) (setsError : option string)
    (stores : option (list Post * JS.number)),
    (∀ message, setsError = Some message → JS.falsy setsError = false) ∧
    ∀ w : World ProfileScreen.State,
      ui (ProfileScreen.fetchPosts env w).2
      = ProfileScreen.mkState
          (if stores is Some (posts, _) then posts else ProfileScreen.posts (ui w))
          loads
          (if setsError is Some _ then setsError else ProfileScreen.error (ui w))
          (ProfileScreen.username (ui w)) (ProfileScreen.userLoading (ui w))
          (if stores is Some (_, score) then score
           else ProfileScreen.controversyScore (ui w)).
Proof.
  destruct (JS.falsy (stored_id env)) eqn:Hid.
  { exists false, (Some "User ID is not available"), None. split; [by intros ? [= <-]|].
    intros w. destruct (fetchPosts_unavailable env w Hid) as (logs & -> & _). done. }
  pose proof (stored_id_item env Hid) as Hs.
  destruct (payload (ProfileScreen.posts_response env)) as [data_posts|] eqn:Hdata.
  - destruct (settles (length data_posts) (ProfileScreen.completion_order env)) eqn:Horder.
    + destruct (profile_fetchPosts_run env _ data_posts (mkWorld ProfileScreen.initial [])
                  Hs Hid Hdata Horder) as (out & _ & Henr & _).
      exists false, None, (Some (out, accumulate (JS.ofZ 0) data_posts)). split; [done|].
      intros w.
      destruct (profile_fetchPosts_run env _ data_posts w Hs Hid Hdata Horder)
        as (out' & logs & Henr' & _ & ->).
      simpl. by rewrite (enriched_unique _ _ _ _ w Henr Henr').
    + exists true, None, None. split; [done|]. intros w.
      destruct (profile_fetchPosts_pending env data_posts w Hid Hdata Horder)
        as (logs & -> & _). done.
  - exists false, (Some "Failed to load posts"), None. split; [by intros ? [= <-]|].
    intros w. by erewrite profile_fetchPosts_failed.
Qed.

(** X19.  The final React state of the profile screen does not depend on
    which of its two fetches runs first: posts, loading flags, username and
    score are the same in both orders, and so is the presence of an error
    (when both fetches fail, the later one decides the message shown). *)
Theorem profile_fetches_commute
    (env : ProfileScreen.Env) (w : World ProfileScreen.State) :
  let a := ui (ProfileScreen.fetchPosts env (ProfileScreen.fetchUserData env w).2).2 in
  let b := ui (ProfileScreen.fetchUserData env (ProfileScreen.fetchPosts env w).2).2 in
  ProfileScreen.posts a = ProfileScreen.posts b ∧
  ProfileScreen.isLoading a = ProfileScreen.isLoading b ∧
  ProfileScreen.username a = ProfileScreen.username b ∧
  ProfileScreen.userLoading a = ProfileScreen.userLoading b ∧
  ProfileScreen.controversyScore a = ProfileScreen.controversyScore b ∧
  JS.falsy (ProfileScreen.error a) = JS.falsy (ProfileScreen.error b).
Proof.
  destruct (fetchUserData_effect env) as (eu & uu & Heu & Hu).
  destruct (fetchPosts_effect env) as (lp & ep & sp & Hep & Hp).
  intros a b. unfold a, b.
  rewrite (Hp (ProfileScreen.fetchUserData env w).2), (Hu w),
    (Hu (ProfileScreen.fetchPosts env w).2), (Hp w).
  cbn [ProfileScreen.posts ProfileScreen.isLoading ProfileScreen.error
       ProfileScreen.username ProfileScreen.userLoading ProfileScreen.controversyScore].
  repeat split.
  destruct ep as [mp|], eu as [mu|]; try done.
  by rewrite (Hep mp), (Heu mu).
Qed.

(** X20.  A failed user-data fetch hides posts that were loaded: with a
    stored identifier, a failing user-data fetch and a successful posts
    fetch, the posts are stored but the screen shows 'Failed to load user
    data' in their place, in whichever order the two fetches run. *)
Theorem user_data_error_hides_posts
    (env : ProfileScreen.Env) (data_posts : list Post) (w : World ProfileScreen.State) :
  JS.falsy (stored_id env) = false →
  fetch_failed (ProfileScreen.user_response env) = true ∨
  payload (ProfileScreen.user_response env) = None →
  payload (ProfileScreen.posts_response env) = Some data_posts →
  settles (length data_posts) (ProfileScreen.completion_order env) = true →
  let a := ui (ProfileScreen.fetchPosts env (ProfileScreen.fetchUserData env w).2).2 in
  let b := ui (ProfileScreen.fetchUserData env (ProfileScreen.fetchPosts env w).2).2 in
  length (ProfileScreen.posts a) = length data_posts ∧
  ProfileScreen.renderPosts a = ProfileScreen.ErrorText "Failed to load user data" ∧
  length (ProfileScreen.posts b) = length data_posts ∧
  ProfileScreen.renderPosts b = ProfileScreen.ErrorText "Failed to load user data".
Proof.
  intros Hid Hfail Hdata Horder. pose proof (stored_id_item env Hid) as Hs. simpl.
  rewrite (fetchUserData_failed env w Hid Hfail). simpl.
  destruct (profile_fetchPosts_run env _ data_posts w Hs Hid Hdata Horder)
    as (out & logs & [Hlen _] & _ & ->).
  match goal with
  | |- context [ProfileScreen.fetchPosts env ?w1] =>
      destruct (profile_fetchPosts_run env _ data_posts w1 Hs Hid Hdata Horder)
        as (out' & logs' & [Hlen' _] & _ & ->)
  end.
  simpl. rewrite fetchUserData_failed by done. simpl. done.
Qed.

Lemma user_data_error_hides_posts_witness :
  let env := ProfileScreen.mkEnv (ProfileScreen.Item (Some "7")) Rejected
               (Sample.delivered [Sample.first; Sample.second]) Sample.prompts [1; 0]%nat in
  let a := ui (ProfileScreen.fetchPosts env
                 (ProfileScreen.fetchUserData env Sample.profile_start).2).2 in
  let b := ui (ProfileScreen.fetchUserData env
                 (ProfileScreen.fetchPosts env Sample.profile_start).2).2 in
  length (ProfileScreen.posts a) = length [Sample.first; Sample.second] ∧
  ProfileScreen.renderPosts a = ProfileScreen.ErrorText "Failed to load user data" ∧
  length (ProfileScreen.posts b) = length [Sample.first; Sample.second] ∧
  ProfileScreen.renderPosts b = ProfileScreen.ErrorText "Failed to load user data".
Proof.
  intros env.
  apply (user_data_error_hides_posts env [Sample.first; Sample.second] Sample.profile_start);
    [reflexivity | left; reflexivity | reflexivity | reflexivity].
Defined.

(** ** The profile page as a whole *)

(** X21.  After a successful user-data fetch the header shows the fetched
    [Username], or 'Unknown User' when the service returned an empty one;
    the score shown is the one the state already held. *)
Theorem header_shows_fetched_username
    (env : ProfileScreen.Env) (userData : UserData) (w : World ProfileScreen.State) :
  JS.falsy (stored_id env) = false →
  fetch_failed (ProfileScreen.user_response env) = false →
  payload (ProfileScreen.user_response env) = Some userData →
  ∃ w',
    ProfileScreen.fetchUserData env w = (Normal tt, w') ∧
    ProfilePage.header (ProfilePage.render (ui w'))
    = ProfilePage.HeaderName
        (if String.eqb (Username userData) "" then "Unknown User" else Username userData) ∧
    ProfilePage.scoreValue (ProfilePage.render (ui w'))
    = ProfileScreen.controversyScore (ui w).
Proof.
  intros Hid Hok Hdata. eexists.
  split; [by apply fetchUserData_loaded|]. done.
Qed.

Lemma header_shows_fetched_username_witness :
  ∃ w',
    ProfileScreen.fetchUserData Sample.profile Sample.profile_start = (Normal tt, w') ∧
    ProfilePage.header (ProfilePage.render (ui w'))
    = ProfilePage.HeaderName (if String.eqb "ann" "" then "Unknown User" else "ann") ∧
    ProfilePage.scoreValue (ProfilePage.render (ui w'))
    = ProfileScreen.controversyScore (ui Sample.profile_start).
Proof.
  apply (header_shows_fetched_username Sample.profile
           {| UserID := "7"; Username := "ann" |} Sample.profile_start);
    reflexivity.
Defined.

(** X22.  The score is shown even when the posts are not: with a stored
    identifier, a failing user-data fetch and a successful posts fetch whose
    vote counts are non-negative and sum to at most 2^53, the page shows the
    user-data error in place of the posts while the score shown is the sum
    of the votes of the posts that were fetched, and the header shows the
    username the state held (or 'Unknown User'). *)
Theorem score_is_shown_beside_error
    (env : ProfileScreen.Env) (data_posts : list Post) (w : World ProfileScreen.State) :
  JS.falsy (stored_id env) = false →
  fetch_failed (ProfileScreen.user_response env) = true ∨
  payload (ProfileScreen.user_response env) = None →
  payload (ProfileScreen.posts_response env) = Some data_posts →
  settles (length data_posts) (ProfileScreen.completion_order env) = true →
  Forall (fun post => 0 ≤ UpvoteCount post ∧ 0 ≤ DownvoteCount post) data_posts →
  sum_votes data_posts ≤ 2 ^ 53 →
  let page :=
    ProfilePage.render
      (ui (ProfileScreen.fetchPosts env (ProfileScreen.fetchUserData env w).2).2) in
  ProfilePage.postsSection page = ProfileScreen.ErrorText "Failed to load user data" ∧
  ProfilePage.scoreValue page = JS.Decimal false (Z.to_N (sum_votes data_posts)) 0 ∧
  ProfilePage.header page
  = ProfilePage.HeaderName
      (if String.eqb (ProfileScreen.username (ui w)) "" then "Unknown User"
       else ProfileScreen.username (ui w)).
Proof.
  intros Hid Hfail Hdata Horder Hcounts Hsum. pose proof (stored_id_item env Hid) as Hs.
  rewrite (fetchUserData_failed env w Hid Hfail).
  match goal with
  | |- context [ProfileScreen.fetchPosts env ?w1] =>
      destruct (profile_fetchPosts_run env _ data_posts w1 Hs Hid Hdata Horder)
        as (out & logs & _ & _ & ->)
  end.
  cbv zeta. unfold ProfilePage.render. simpl. repeat split.
  rewrite (ofZ_exact 0) by lia. by rewrite (accumulate_exact data_posts 0 Hcounts).
Qed.

Lemma score_is_shown_beside_error_witness :
  let env := ProfileScreen.mkEnv (ProfileScreen.Item (Some "7")) Rejected
               (Sample.delivered [Sample.first; Sample.second]) Sample.prompts [1; 0]%nat in
  let page :=
    ProfilePage.render
      (ui (ProfileScreen.fetchPosts env
             (ProfileScreen.fetchUserData env Sample.profile_start).2).2) in
  ProfilePage.postsSection page = ProfileScreen.ErrorText "Failed to load user data" ∧
  ProfilePage.scoreValue page
  = JS.Decimal false (Z.to_N (sum_votes [Sample.first; Sample.second])) 0 ∧
  ProfilePage.header page
  = ProfilePage.HeaderName
      (if String.eqb (ProfileScreen.username (ui Sample.profile_start)) ""
       then "Unknown User" else ProfileScreen.username (ui Sample.profile_start)).
Proof.
  intros env.
  apply (score_is_shown_beside_error env [Sample.first; Sample.second] Sample.profile_start);
    [reflexivity | left; reflexivity | reflexivity | reflexivity
    | repeat constructor; simpl; lia | vm_compute; discriminate].
Defined.
